(** * Recipe Explorer backend: the in-memory recipe store and its handlers

    A shallow embedding of [recipe_backend/src/api/main.py].

    - Python [int] is [Z] (unbounded), [str] is [string] with its length
      counted by [String.length], [List[str]] is [list string],
      [Optional[T]] is [option T], [datetime] is [Z].
    - [_db] is a Python [dict]: it keeps insertion order, assignment to an
      existing key keeps the key's position, assignment to a new key appends.
      It is modelled as an association list with exactly these operations.
    - The module globals [_db] and [_id_counter] are threaded as an explicit
      [State]; [datetime.utcnow()] reads the next value of a clock.
    - Exceptions are outcomes: a raise aborts the handler and keeps every
      mutation that was made before it.
    - A request body is a JSON object whose values have the declared JSON
      types; what pydantic does with a value of another type is outside the
      model.  [HttpUrl] parsing is a parameter. *)

From Stdlib Require Import ZArith List String Bool Lia PeanoNat.
Import ListNotations.
Open Scope string_scope.
Open Scope Z_scope.

(** ** Field values *)

Definition datetime := Z.

(** A validated [HttpUrl] value, kept as its text. *)
Definition HttpUrl := string.

(** A field of a request body, or of a model that records which fields were
    set: left out, or given as [null] ([Provided None]) or as a value. *)
Inductive Presence (A : Type) : Type :=
| Unset : Presence A
| Provided : option A -> Presence A.
Arguments Unset {A}.
Arguments Provided {A} _.

(** ** Schemas *)

(** [RecipeBase] / [RecipeCreate]: a validated full input record. *)
Record RecipeCreate : Type := mkRecipeCreate {
  p_title : string;
  p_description : option string;
  p_ingredients : list string;
  p_steps : list string;
  p_image_url : option HttpUrl;
  p_prep_time_minutes : option Z;
  p_cook_time_minutes : option Z;
  p_servings : option Z
}.

(** [RecipeUpdate]: every field is [Optional] with default [None]; the model
    remembers which fields the body set ([model_fields_set]). *)
Record RecipeUpdate : Type := mkRecipeUpdate {
  u_title : Presence string;
  u_description : Presence string;
  u_ingredients : Presence (list string);
  u_steps : Presence (list string);
  u_image_url : Presence HttpUrl;
  u_prep_time_minutes : Presence Z;
  u_cook_time_minutes : Presence Z;
  u_servings : Presence Z
}.

(** [Recipe]: a stored record. *)
Record Recipe : Type := mkRecipe {
  r_title : string;
  r_description : option string;
  r_ingredients : list string;
  r_steps : list string;
  r_image_url : option HttpUrl;
  r_prep_time_minutes : option Z;
  r_cook_time_minutes : option Z;
  r_servings : option Z;
  r_id : Z;
  r_created_at : datetime;
  r_updated_at : datetime
}.

(** The keyword arguments of a [Recipe(...)] call, which is also the shape of
    [Recipe.model_dump()]: all eleven keys, the eight content values possibly
    [None]. *)
Record RecipeData : Type := mkRecipeData {
  d_title : option string;
  d_description : option string;
  d_ingredients : option (list string);
  d_steps : option (list string);
  d_image_url : option HttpUrl;
  d_prep_time_minutes : option Z;
  d_cook_time_minutes : option Z;
  d_servings : option Z;
  d_id : Z;
  d_created_at : datetime;
  d_updated_at : datetime
}.

(** A JSON request body restricted to the eight declared keys (pydantic
    ignores the others); the URL is still raw text. *)
Record Body : Type := mkBody {
  b_title : Presence string;
  b_description : Presence string;
  b_ingredients : Presence (list string);
  b_steps : Presence (list string);
  b_image_url : Presence string;
  b_prep_time_minutes : Presence Z;
  b_cook_time_minutes : Presence Z;
  b_servings : Presence Z
}.

(** ** Field constraints *)

(** [min_length=1, max_length=200] *)
Definition title_ok (s : string) : bool :=
  (1 <=? String.length s)%nat && (String.length s <=? 200)%nat.

(** [max_length=2000] *)
Definition description_ok (s : string) : bool :=
  (String.length s <=? 2000)%nat.

(** [ge=lo] *)
Definition ge_ok (lo n : Z) : bool := lo <=? n.

(** A constraint on an [Optional] field: [None] passes. *)
Definition opt_ok {A : Type} (ok : A -> bool) (o : option A) : bool :=
  match o with
  | None => true
  | Some a => ok a
  end.

(** The [Recipe] constructor applied to keyword arguments [data]: it validates its arguments; [title],
    [ingredients] and [steps] are not [Optional] and refuse [None]. *)
Definition Recipe_new (d : RecipeData) : option Recipe :=
  match d_title d, d_ingredients d, d_steps d with
  | Some t, Some ing, Some stp =>
      if title_ok t
         && opt_ok description_ok (d_description d)
         && opt_ok (ge_ok 0) (d_prep_time_minutes d)
         && opt_ok (ge_ok 0) (d_cook_time_minutes d)
         && opt_ok (ge_ok 1) (d_servings d)
      then Some (mkRecipe t (d_description d) ing stp (d_image_url d)
                   (d_prep_time_minutes d) (d_cook_time_minutes d)
                   (d_servings d) (d_id d) (d_created_at d) (d_updated_at d))
      else None
  | _, _, _ => None
  end.

(** [Recipe.model_dump()] *)
Definition Recipe_model_dump (r : Recipe) : RecipeData :=
  mkRecipeData (Some (r_title r)) (r_description r) (Some (r_ingredients r))
    (Some (r_steps r)) (r_image_url r) (r_prep_time_minutes r)
    (r_cook_time_minutes r) (r_servings r) (r_id r) (r_created_at r)
    (r_updated_at r).

(** The keyword arguments of [Recipe] in [create_recipe] and
    [update_recipe]: [id], [created_at], [updated_at] and the dumped payload. *)
Definition RecipeCreate_kwargs (rid : Z) (created updated : datetime)
    (p : RecipeCreate) : RecipeData :=
  mkRecipeData (Some (p_title p)) (p_description p) (Some (p_ingredients p))
    (Some (p_steps p)) (p_image_url p) (p_prep_time_minutes p)
    (p_cook_time_minutes p) (p_servings p) rid created updated.

(** [data[key] = value] for one key of
    [payload.model_dump(exclude_unset=True)]: a field that was set, also to
    [None], replaces the value; a field that was not set is not in the dump. *)
Definition assign {A : Type} (cur : option A) (f : Presence A) : option A :=
  match f with
  | Unset => cur
  | Provided v => v
  end.

(** The loop of [patch_recipe] over the dumped payload. *)
Definition merge_update (data : RecipeData) (p : RecipeUpdate) : RecipeData :=
  mkRecipeData
    (assign (d_title data) (u_title p))
    (assign (d_description data) (u_description p))
    (assign (d_ingredients data) (u_ingredients p))
    (assign (d_steps data) (u_steps p))
    (assign (d_image_url data) (u_image_url p))
    (assign (d_prep_time_minutes data) (u_prep_time_minutes p))
    (assign (d_cook_time_minutes data) (u_cook_time_minutes p))
    (assign (d_servings data) (u_servings p))
    (d_id data) (d_created_at data) (d_updated_at data).

(** [data["updated_at"] = ...] *)
Definition set_updated_at (data : RecipeData) (t : datetime) : RecipeData :=
  mkRecipeData (d_title data) (d_description data) (d_ingredients data)
    (d_steps data) (d_image_url data) (d_prep_time_minutes data)
    (d_cook_time_minutes data) (d_servings data) (d_id data)
    (d_created_at data) t.

(** ** The dict [_db] *)

Definition Dict := list (Z * Recipe).

(** [d.get(k)] *)
Fixpoint dict_get (k : Z) (d : Dict) : option Recipe :=
  match d with
  | [] => None
  | (k', v) :: t => if k =? k' then Some v else dict_get k t
  end.

(** [d[k] = v] *)
Fixpoint dict_set (k : Z) (v : Recipe) (d : Dict) : Dict :=
  match d with
  | [] => [(k, v)]
  | (k', v') :: t =>
      if k =? k' then (k, v) :: t else (k', v') :: dict_set k v t
  end.

(** [del d[k]] *)
Fixpoint dict_del (k : Z) (d : Dict) : Dict :=
  match d with
  | [] => []
  | (k', v') :: t => if k =? k' then t else (k', v') :: dict_del k t
  end.

(** [k in d] *)
Definition dict_contains (k : Z) (d : Dict) : bool :=
  match dict_get k d with
  | Some _ => true
  | None => false
  end.

(** [list(d.values())] *)
Definition dict_values (d : Dict) : list Recipe := map snd d.

(** [list(d.keys())] *)
Definition dict_keys (d : Dict) : list Z := map fst d.

(** [if d:] *)
Definition dict_nonempty (d : Dict) : bool :=
  match d with
  | [] => false
  | _ :: _ => true
  end.

(** ** State, outcomes and the handler monad *)

(** The module globals, and how many times the clock has been read. *)
Record State : Type := mkState {
  _db : Dict;
  _id_counter : Z;
  ticks : nat
}.

(** The state at import time: [_db = {}], [_id_counter = 0]. *)
Definition initial_state : State := mkState [] 0 0.

(** What a request ends in.
    - [Return a]: the handler returned [a].
    - [HTTPException code detail]: the handler raised it.
    - [RequestValidationError]: the path or the body failed its declared
      schema; the framework answers 422 and the handler is not called.
    - [ValidationError_in_handler]: a [Recipe(...)] call in the handler body
      raised pydantic's validation error; no handler catches it, so it is
      not an [HTTPException] and not the 422 of the request schema. *)
Inductive Outcome (A : Type) : Type :=
| Return : A -> Outcome A
| HTTPException : Z -> string -> Outcome A
| RequestValidationError : Outcome A
| ValidationError_in_handler : Outcome A.
Arguments Return {A} _.
Arguments HTTPException {A} _ _.
Arguments RequestValidationError {A}.
Arguments ValidationError_in_handler {A}.

Definition M (A : Type) : Type := State -> Outcome A * State.

Definition ret {A : Type} (a : A) : M A := fun st => (Return a, st).

Definition bind {A B : Type} (m : M A) (k : A -> M B) : M B :=
  fun st =>
    match m st with
    | (Return a, st') => k a st'
    | (HTTPException c d, st') => (HTTPException c d, st')
    | (RequestValidationError, st') => (RequestValidationError, st')
    | (ValidationError_in_handler, st') => (ValidationError_in_handler, st')
    end.

Notation "x <- m ;; k" := (bind m (fun x => k))
  (at level 61, m at next level, right associativity).
Notation "m ;;; k" := (bind m (fun _ => k))
  (at level 61, right associativity).

Definition raise_HTTPException {A : Type} (code : Z) (detail : string) : M A :=
  fun st => (HTTPException code detail, st).

Definition get_db : M Dict := fun st => (Return (_db st), st).

Definition put_db (d : Dict) : M unit :=
  fun st => (Return tt, mkState d (_id_counter st) (ticks st)).

(** A [Recipe(...)] call inside a handler. *)
Definition construct (d : RecipeData) : M Recipe :=
  fun st =>
    match Recipe_new d with
    | Some r => (Return r, st)
    | None => (ValidationError_in_handler, st)
    end.

(** ** Request schemas: what the framework checks before it calls a handler *)

(** A required field with a constraint: it must be given a value. *)
Definition required {A : Type} (ok : A -> bool) (f : Presence A) : option A :=
  match f with
  | Provided (Some a) => if ok a then Some a else None
  | _ => None
  end.

(** An [Optional] field with default [None]. *)
Definition optional {A : Type} (ok : A -> bool) (f : Presence A)
    : option (option A) :=
  match f with
  | Unset | Provided None => Some None
  | Provided (Some a) => if ok a then Some (Some a) else None
  end.

(** A [List[str]] field with [default_factory=list]: [null] is refused. *)
Definition with_default {A : Type} (dflt : A) (f : Presence A) : option A :=
  match f with
  | Unset => Some dflt
  | Provided None => None
  | Provided (Some a) => Some a
  end.

(** An [Optional] field of [RecipeUpdate]: the model keeps whether it was
    set. *)
Definition optional_set {A : Type} (ok : A -> bool) (f : Presence A)
    : option (Presence A) :=
  match f with
  | Unset => Some Unset
  | Provided None => Some (Provided None)
  | Provided (Some a) => if ok a then Some (Provided (Some a)) else None
  end.

Definition any {A : Type} (_ : A) : bool := true.

(** [Path(..., ge=1)] *)
Definition path_ok (recipe_id : Z) : bool := 1 <=? recipe_id.

(** The sample of [_ensure_seed]. *)
Definition sample_data (rid : Z) (created updated : datetime) : RecipeData :=
  mkRecipeData
    (Some "Classic Pancakes")
    (Some "Fluffy pancakes perfect for breakfast.")
    (Some [ "1 1/2 cups all-purpose flour";
            "3 1/2 tsp baking powder";
            "1 tsp salt";
            "1 tbsp white sugar";
            "1 1/4 cups milk";
            "1 egg";
            "3 tbsp butter, melted" ])
    (Some [ "In a large bowl, sift together the flour, baking powder, salt and sugar.";
            "Make a well in the center and pour in the milk, egg and melted butter; mix until smooth.";
            "Heat a lightly oiled griddle over medium high heat.";
            "Pour or scoop the batter onto the griddle, using approximately 1/4 cup for each pancake.";
            "Brown on both sides and serve hot." ])
    None (Some 10) (Some 15) (Some 4) rid created updated.

Inductive Request : Type :=
| GET_root : Request
| GET_recipes : Request
| GET_recipe : Z -> Request
| POST_recipes : Body -> Request
| PUT_recipe : Z -> Body -> Request
| PATCH_recipe : Z -> Body -> Request
| DELETE_recipe : Z -> Request.

Inductive Response : Type :=
| Healthy : Response
| Recipes : list Recipe -> Response
| OneRecipe : Recipe -> Response
| Deleted : Z -> Response.

Section Handlers.

(** [clock n] is what the [n]-th call of [datetime.utcnow()] returns. *)
Variable clock : nat -> datetime.

(** pydantic's [HttpUrl] validation of a text; [None] when it is refused. *)
Variable HttpUrl_parse : string -> option HttpUrl.

Definition optional_url (f : Presence string) : option (option HttpUrl) :=
  match f with
  | Unset | Provided None => Some None
  | Provided (Some s) =>
      match HttpUrl_parse s with
      | Some u => Some (Some u)
      | None => None
      end
  end.

Definition optional_set_url (f : Presence string)
    : option (Presence HttpUrl) :=
  match f with
  | Unset => Some Unset
  | Provided None => Some (Provided None)
  | Provided (Some s) =>
      match HttpUrl_parse s with
      | Some u => Some (Provided (Some u))
      | None => None
      end
  end.

(** The body of POST and PUT against [RecipeCreate]. *)
Definition RecipeCreate_validate (b : Body) : option RecipeCreate :=
  match required title_ok (b_title b),
        optional description_ok (b_description b),
        with_default [] (b_ingredients b),
        with_default [] (b_steps b),
        optional_url (b_image_url b),
        optional (ge_ok 0) (b_prep_time_minutes b),
        optional (ge_ok 0) (b_cook_time_minutes b),
        optional (ge_ok 1) (b_servings b)
  with
  | Some t, Some d, Some i, Some s, Some u, Some p, Some c, Some v =>
      Some (mkRecipeCreate t d i s u p c v)
  | _, _, _, _, _, _, _, _ => None
  end.

(** The body of PATCH against [RecipeUpdate]. *)
Definition RecipeUpdate_validate (b : Body) : option RecipeUpdate :=
  match optional_set title_ok (b_title b),
        optional_set description_ok (b_description b),
        optional_set any (b_ingredients b),
        optional_set any (b_steps b),
        optional_set_url (b_image_url b),
        optional_set (ge_ok 0) (b_prep_time_minutes b),
        optional_set (ge_ok 0) (b_cook_time_minutes b),
        optional_set (ge_ok 1) (b_servings b)
  with
  | Some t, Some d, Some i, Some s, Some u, Some p, Some c, Some v =>
      Some (mkRecipeUpdate t d i s u p c v)
  | _, _, _, _, _, _, _, _ => None
  end.

(** ** The repository *)

Definition _next_id : M Z :=
  fun st =>
    let c := _id_counter st + 1 in
    (Return c, mkState (_db st) c (ticks st)).

Definition _now : M datetime :=
  fun st =>
    (Return (clock (ticks st)),
     mkState (_db st) (_id_counter st) (S (ticks st))).

Definition _ensure_seed : M unit :=
  db <- get_db ;;
  if dict_nonempty db then ret tt
  else
    rid <- _next_id ;;
    created <- _now ;;
    updated <- _now ;;
    sample <- construct (sample_data rid created updated) ;;
    db' <- get_db ;;
    put_db (dict_set (r_id sample) sample db').

(** ** The handlers *)

Definition health_check : M string := ret "Healthy".

Definition list_recipes : M (list Recipe) :=
  _ensure_seed ;;;
  db <- get_db ;;
  ret (dict_values db).

Definition get_recipe (recipe_id : Z) : M Recipe :=
  _ensure_seed ;;;
  db <- get_db ;;
  match dict_get recipe_id db with
  | None => raise_HTTPException 404 "Recipe not found"
  | Some recipe => ret recipe
  end.

Definition create_recipe (payload : RecipeCreate) : M Recipe :=
  _ensure_seed ;;;
  rid <- _next_id ;;
  now <- _now ;;
  recipe <- construct (RecipeCreate_kwargs rid now now payload) ;;
  db <- get_db ;;
  put_db (dict_set rid recipe db) ;;;
  ret recipe.

Definition update_recipe (recipe_id : Z) (payload : RecipeCreate)
    : M Recipe :=
  _ensure_seed ;;;
  db <- get_db ;;
  match dict_get recipe_id db with
  | None => raise_HTTPException 404 "Recipe not found"
  | Some existing =>
      now <- _now ;;
      updated <- construct
        (RecipeCreate_kwargs recipe_id (r_created_at existing) now payload) ;;
      db' <- get_db ;;
      put_db (dict_set recipe_id updated db') ;;;
      ret updated
  end.

Definition patch_recipe (recipe_id : Z) (payload : RecipeUpdate)
    : M Recipe :=
  _ensure_seed ;;;
  db <- get_db ;;
  match dict_get recipe_id db with
  | None => raise_HTTPException 404 "Recipe not found"
  | Some existing =>
      let data := merge_update (Recipe_model_dump existing) payload in
      now <- _now ;;
      updated <- construct (set_updated_at data now) ;;
      db' <- get_db ;;
      put_db (dict_set recipe_id updated db') ;;;
      ret updated
  end.

Definition delete_recipe (recipe_id : Z) : M Z :=
  _ensure_seed ;;;
  db <- get_db ;;
  if dict_contains recipe_id db then
    put_db (dict_del recipe_id db) ;;;
    ret recipe_id
  else raise_HTTPException 404 "Recipe not found".

(** ** The routes: schema checks first, then the handler *)

Definition reject {A : Type} : M A :=
  fun st => (RequestValidationError, st).

Definition route (req : Request) : M Response :=
  match req with
  | GET_root => health_check ;;; ret Healthy
  | GET_recipes => l <- list_recipes ;; ret (Recipes l)
  | GET_recipe recipe_id =>
      if path_ok recipe_id
      then r <- get_recipe recipe_id ;; ret (OneRecipe r)
      else reject
  | POST_recipes body =>
      match RecipeCreate_validate body with
      | Some payload => r <- create_recipe payload ;; ret (OneRecipe r)
      | None => reject
      end
  | PUT_recipe recipe_id body =>
      match path_ok recipe_id, RecipeCreate_validate body with
      | true, Some payload =>
          r <- update_recipe recipe_id payload ;; ret (OneRecipe r)
      | _, _ => reject
      end
  | PATCH_recipe recipe_id body =>
      match path_ok recipe_id, RecipeUpdate_validate body with
      | true, Some payload =>
          r <- patch_recipe recipe_id payload ;; ret (OneRecipe r)
      | _, _ => reject
      end
  | DELETE_recipe recipe_id =>
      if path_ok recipe_id
      then i <- delete_recipe recipe_id ;; ret (Deleted i)
      else reject
  end.

(** The process: requests served one after the other. *)
Definition step (st : State) (req : Request) : State := snd (route req st).

Definition run (reqs : list Request) (st : State) : State :=
  fold_left step reqs st.

(** [n] successive calls of [_next_id], with what each returned. *)
Fixpoint next_ids (n : nat) (st : State) : list Z * State :=
  match n with
  | O => ([], st)
  | S n' =>
      match _next_id st with
      | (Return i, st') =>
          let (l, st'') := next_ids n' st' in (i :: l, st'')
      | (_, st') => ([], st')
      end
  end.

End Handlers.

(** The empty body [{}]. *)
Definition empty_body : Body :=
  mkBody Unset Unset Unset Unset Unset Unset Unset Unset.

(** * Vocabulary of the statements *)

(** ** Validation of records *)

(** The constraints a [Recipe] instance satisfies. *)
Definition recipe_valid (r : Recipe) : bool :=
  title_ok (r_title r)
  && opt_ok description_ok (r_description r)
  && opt_ok (ge_ok 0) (r_prep_time_minutes r)
  && opt_ok (ge_ok 0) (r_cook_time_minutes r)
  && opt_ok (ge_ok 1) (r_servings r).

(** The constraints a [RecipeCreate] instance satisfies. *)
Definition payload_valid (p : RecipeCreate) : bool :=
  title_ok (p_title p)
  && opt_ok description_ok (p_description p)
  && opt_ok (ge_ok 0) (p_prep_time_minutes p)
  && opt_ok (ge_ok 0) (p_cook_time_minutes p)
  && opt_ok (ge_ok 1) (p_servings p).

(** The record [create_recipe] and [update_recipe] build from a payload. *)
Definition recipe_of_payload (rid : Z) (created updated : datetime)
    (p : RecipeCreate) : Recipe :=
  mkRecipe (p_title p) (p_description p) (p_ingredients p) (p_steps p)
    (p_image_url p) (p_prep_time_minutes p) (p_cook_time_minutes p)
    (p_servings p) rid created updated.

(** The seed record. *)
Definition sample_recipe (rid : Z) (created updated : datetime) : Recipe :=
  mkRecipe "Classic Pancakes" (d_description (sample_data rid created updated))
    (match d_ingredients (sample_data rid created updated) with
     | Some l => l | None => [] end)
    (match d_steps (sample_data rid created updated) with
     | Some l => l | None => [] end)
    None (Some 10) (Some 15) (Some 4) rid created updated.

(** A payload that sets none of the fields [Recipe] refuses as [None]. *)
Definition no_null_on_required (p : RecipeUpdate) : bool :=
  match u_title p, u_ingredients p, u_steps p with
  | Provided None, _, _ => false
  | _, Provided None, _ => false
  | _, _, Provided None => false
  | _, _, _ => true
  end.

(** The constraints a [RecipeUpdate] instance satisfies. *)
Definition update_valid (p : RecipeUpdate) : bool :=
  match u_title p with Provided (Some t) => title_ok t | _ => true end
  && match u_description p with
     | Provided (Some d) => description_ok d | _ => true end
  && match u_prep_time_minutes p with
     | Provided (Some n) => ge_ok 0 n | _ => true end
  && match u_cook_time_minutes p with
     | Provided (Some n) => ge_ok 0 n | _ => true end
  && match u_servings p with
     | Provided (Some n) => ge_ok 1 n | _ => true end.

(** One field after a patch: the payload's value when the field was set, the
    stored value otherwise. *)
Definition patched {A : Type} (old : A) (f : Presence A) : A :=
  match f with
  | Provided (Some a) => a
  | _ => old
  end.

(** The same for a field that may hold [None]. *)
Definition patched_opt {A : Type} (old : option A) (f : Presence A)
    : option A :=
  match f with
  | Provided v => v
  | Unset => old
  end.

(** The record [patch_recipe] builds when the merged data validates. *)
Definition patched_recipe (old : Recipe) (p : RecipeUpdate) (now : datetime)
    : Recipe :=
  mkRecipe
    (patched (r_title old) (u_title p))
    (patched_opt (r_description old) (u_description p))
    (patched (r_ingredients old) (u_ingredients p))
    (patched (r_steps old) (u_steps p))
    (patched_opt (r_image_url old) (u_image_url p))
    (patched_opt (r_prep_time_minutes old) (u_prep_time_minutes p))
    (patched_opt (r_cook_time_minutes old) (u_cook_time_minutes p))
    (patched_opt (r_servings old) (u_servings p))
    (r_id old) (r_created_at old) now.

(** The state [_ensure_seed] leaves: untouched when the store holds a record,
    otherwise one fresh id and two clock readings are consumed and the sample
    is stored. *)
Definition seed_state (clock : nat -> datetime) (st : State) : State :=
  if dict_nonempty (_db st) then st
  else
    let c := _id_counter st + 1 in
    mkState
      [(c, sample_recipe c (clock (ticks st)) (clock (S (ticks st))))]
      c (S (S (ticks st))).

(** An entry of the store holds a validated record under its own id, and the
    id was issued by the counter. *)
Definition entry_ok (c : Z) (e : Z * Recipe) : Prop :=
  r_id (snd e) = fst e /\ 1 <= fst e <= c /\ recipe_valid (snd e) = true.

Definition store_ok (st : State) : Prop :=
  NoDup (dict_keys (_db st))
  /\ Forall (entry_ok (_id_counter st)) (_db st)
  /\ 0 <= _id_counter st.

(** The timestamps of an entry are readings of the clock already taken, the
    creation one no later than the update one. *)
Definition entry_times (clock : nat -> datetime) (t : nat) (e : Z * Recipe)
    : Prop :=
  r_created_at (snd e) <= r_updated_at (snd e)
  /\ exists n, (n < t)%nat /\ r_updated_at (snd e) = clock n.

Definition times_ok (clock : nat -> datetime) (st : State) : Prop :=
  Forall (entry_times clock (ticks st)) (_db st).

Definition monotone (clock : nat -> datetime) : Prop :=
  forall i j : nat, (i <= j)%nat -> clock i <= clock j.

(** How a patched field relates to the stored one and to the payload: a
    field the payload did not set keeps the stored value, a field it set holds
    the payload's value ([None] included). *)
Definition merged {A : Type} (old : option A) (f : Presence A)
    (new : option A) : Prop :=
  match f with
  | Unset => new = old
  | Provided v => new = v
  end.

(** A concrete clock and URL check, to run the handlers on examples. *)
Definition example_clock (n : nat) : datetime := 1000 + Z.of_nat n.

Definition example_url (s : string) : option HttpUrl :=
  if (String.length s <=? 2083)%nat then Some s else None.

(** The body [{"title": "X", "servings": 4}]. *)
Definition body_title_X_servings_4 : Body :=
  mkBody (Provided (Some "X")) Unset Unset Unset Unset Unset Unset
    (Provided (Some 4)).

(** The body [{"servings": 2}]. *)
Definition body_servings_2 : Body :=
  mkBody Unset Unset Unset Unset Unset Unset Unset (Provided (Some 2)).

(** The body [{"title": null}]. *)
Definition body_title_null : Body :=
  mkBody (Provided None) Unset Unset Unset Unset Unset Unset Unset.

(** The body [{"title": "X", "servings": 0}]. *)
Definition body_servings_0 : Body :=
  mkBody (Provided (Some "X")) Unset Unset Unset Unset Unset Unset
    (Provided (Some 0)).

(** The outcomes the handlers are documented to have. *)
Definition documented (o : Outcome Response) : Prop :=
  match o with
  | Return _ => True
  | HTTPException code detail => code = 404 /\ detail = "Recipe not found"
  | RequestValidationError => True
  | ValidationError_in_handler => False
  end.

(** A create or replace body that breaks a declared constraint: [title]
    missing, null, empty or longer than 200; [description] longer than 2000;
    [ingredients] or [steps] null; [image_url] not a valid URL; a negative
    time; [servings] below 1. *)
Definition create_input_invalid (HttpUrl_parse : string -> option HttpUrl)
    (b : Body) : Prop :=
  (match b_title b with
   | Provided (Some t) => String.length t = 0%nat \/ (200 < String.length t)%nat
   | _ => True
   end)
  \/ (exists d, b_description b = Provided (Some d)
                /\ (2000 < String.length d)%nat)
  \/ b_ingredients b = Provided None
  \/ b_steps b = Provided None
  \/ (exists u, b_image_url b = Provided (Some u) /\ HttpUrl_parse u = None)
  \/ (exists n, b_prep_time_minutes b = Provided (Some n) /\ n < 0)
  \/ (exists n, b_cook_time_minutes b = Provided (Some n) /\ n < 0)
  \/ (exists n, b_servings b = Provided (Some n) /\ n < 1).

(** ** Vocabulary of the further properties *)

(** The id whose record a request may write: replace, patch and delete name
    it in the path. *)
Definition written_id (req : Request) : option Z :=
  match req with
  | PUT_recipe i _ | PATCH_recipe i _ | DELETE_recipe i => Some i
  | _ => None
  end.

(** The declared constraints of a stored record, spelled out. *)
Definition recipe_constraints (r : Recipe) : Prop :=
  (1 <= String.length (r_title r) <= 200)%nat
  /\ (forall d, r_description r = Some d -> (String.length d <= 2000)%nat)
  /\ (forall n, r_prep_time_minutes r = Some n -> 0 <= n)
  /\ (forall n, r_cook_time_minutes r = Some n -> 0 <= n)
  /\ (forall n, r_servings r = Some n -> 1 <= n).

(** A patch body that breaks a declared constraint of [RecipeUpdate]: a
    given title that is empty or longer than 200, a given description longer
    than 2000, a given URL that is not valid, a negative time, servings below
    1.  A field left out or given as null breaks none. *)
Definition patch_input_invalid (HttpUrl_parse : string -> option HttpUrl)
    (b : Body) : Prop :=
  (exists t, b_title b = Provided (Some t)
             /\ (String.length t = 0%nat \/ (200 < String.length t)%nat))
  \/ (exists d, b_description b = Provided (Some d)
                /\ (2000 < String.length d)%nat)
  \/ (exists u, b_image_url b = Provided (Some u) /\ HttpUrl_parse u = None)
  \/ (exists n, b_prep_time_minutes b = Provided (Some n) /\ n < 0)
  \/ (exists n, b_cook_time_minutes b = Provided (Some n) /\ n < 0)
  \/ (exists n, b_servings b = Provided (Some n) /\ n < 1).

(** A request that breaks the declared schema of its route: a path id below
    1, or a body that breaks a field constraint. *)
Definition request_invalid (HttpUrl_parse : string -> option HttpUrl)
    (req : Request) : Prop :=
  match req with
  | GET_root | GET_recipes => False
  | GET_recipe i | DELETE_recipe i => i < 1
  | POST_recipes b => create_input_invalid HttpUrl_parse b
  | PUT_recipe i b => i < 1 \/ create_input_invalid HttpUrl_parse b
  | PATCH_recipe i b => i < 1 \/ patch_input_invalid HttpUrl_parse b
  end.

(** Two patches in a row, field by field: what the second sets wins, what it
    leaves out is as the first left it. *)
Definition then_field {A : Type} (f1 f2 : Presence A) : Presence A :=
  match f2 with
  | Unset => f1
  | Provided _ => f2
  end.

Definition body_then (b1 b2 : Body) : Body :=
  mkBody
    (then_field (b_title b1) (b_title b2))
    (then_field (b_description b1) (b_description b2))
    (then_field (b_ingredients b1) (b_ingredients b2))
    (then_field (b_steps b1) (b_steps b2))
    (then_field (b_image_url b1) (b_image_url b2))
    (then_field (b_prep_time_minutes b1) (b_prep_time_minutes b2))
    (then_field (b_cook_time_minutes b1) (b_cook_time_minutes b2))
    (then_field (b_servings b1) (b_servings b2)).

Definition update_then (p1 p2 : RecipeUpdate) : RecipeUpdate :=
  mkRecipeUpdate
    (then_field (u_title p1) (u_title p2))
    (then_field (u_description p1) (u_description p2))
    (then_field (u_ingredients p1) (u_ingredients p2))
    (then_field (u_steps p1) (u_steps p2))
    (then_field (u_image_url p1) (u_image_url p2))
    (then_field (u_prep_time_minutes p1) (u_prep_time_minutes p2))
    (then_field (u_cook_time_minutes p1) (u_cook_time_minutes p2))
    (then_field (u_servings p1) (u_servings p2)).

(** A body that gives every one of the eight fields, as a value or as
    null. *)
Definition all_provided (b : Body) : Prop :=
  b_title b <> Unset /\ b_description b <> Unset
  /\ b_ingredients b <> Unset /\ b_steps b <> Unset
  /\ b_image_url b <> Unset /\ b_prep_time_minutes b <> Unset
  /\ b_cook_time_minutes b <> Unset /\ b_servings b <> Unset.

(** The body that gives all eight fields: title "Y", no description, one
    ingredient, no steps, no image, 5 and 0 minutes, 1 serving. *)
Definition body_full_Y : Body :=
  mkBody (Provided (Some "Y")) (Provided None) (Provided (Some ["salt"]))
    (Provided (Some [])) (Provided None) (Provided (Some 5))
    (Provided (Some 0)) (Provided (Some 1)).

(** A record with another [updated_at]. *)
Definition with_updated_at (r : Recipe) (t : datetime) : Recipe :=
  mkRecipe (r_title r) (r_description r) (r_ingredients r) (r_steps r)
    (r_image_url r) (r_prep_time_minutes r) (r_cook_time_minutes r)
    (r_servings r) (r_id r) (r_created_at r) t.

(** The body [{"title": ""}]. *)
Definition body_title_empty : Body :=
  mkBody (Provided (Some "")) Unset Unset Unset Unset Unset Unset Unset.

(** The body [{"description": null, "ingredients": []}]. *)
Definition body_description_null_ingredients_empty : Body :=
  mkBody Unset (Provided None) (Provided (Some [])) Unset Unset Unset Unset
    Unset.

(** * Properties *)

Arguments title_ok : simpl never.
Arguments description_ok : simpl never.
Arguments ge_ok : simpl never.

Lemma Recipe_new_valid (d : RecipeData) (r : Recipe) :
  Recipe_new d = Some r -> recipe_valid r = true.
Proof.
  unfold Recipe_new, recipe_valid.
  destruct (d_title d), (d_ingredients d), (d_steps d); try discriminate.
  destruct (_ && _) eqn:E; [|discriminate].
  intros H; inversion H; subst; simpl; exact E.
Qed.

Lemma Recipe_new_managed (d : RecipeData) (r : Recipe) :
  Recipe_new d = Some r ->
  r_id r = d_id d /\ r_created_at r = d_created_at d
  /\ r_updated_at r = d_updated_at d.
Proof.
  unfold Recipe_new.
  destruct (d_title d), (d_ingredients d), (d_steps d); try discriminate.
  destruct (_ && _); [|discriminate].
  intros H; inversion H; subst; simpl; auto.
Qed.

Lemma Recipe_new_model_dump (r : Recipe) :
  recipe_valid r = true -> Recipe_new (Recipe_model_dump r) = Some r.
Proof.
  unfold Recipe_new, recipe_valid; destruct r; simpl.
  intros ->; reflexivity.
Qed.

Lemma Recipe_new_payload (rid : Z) (c u : datetime) (p : RecipeCreate) :
  payload_valid p = true ->
  Recipe_new (RecipeCreate_kwargs rid c u p) = Some (recipe_of_payload rid c u p).
Proof.
  unfold Recipe_new, payload_valid; destruct p; simpl.
  intros ->; reflexivity.
Qed.

Lemma recipe_of_payload_valid (rid : Z) (c u : datetime) (p : RecipeCreate) :
  payload_valid p = true -> recipe_valid (recipe_of_payload rid c u p) = true.
Proof. destruct p; exact (fun H => H). Qed.

Lemma Recipe_new_sample (rid : Z) (c u : datetime) :
  Recipe_new (sample_data rid c u) = Some (sample_recipe rid c u).
Proof. reflexivity. Qed.

Lemma sample_recipe_valid (rid : Z) (c u : datetime) :
  recipe_valid (sample_recipe rid c u) = true.
Proof. reflexivity. Qed.

Lemma Recipe_new_patched (old : Recipe) (p : RecipeUpdate) (now : datetime) :
  recipe_valid old = true ->
  update_valid p = true ->
  no_null_on_required p = true ->
  Recipe_new (set_updated_at (merge_update (Recipe_model_dump old) p) now)
  = Some (patched_recipe old p now).
Proof.
  unfold recipe_valid, update_valid, no_null_on_required, Recipe_new,
    patched_recipe.
  destruct old, p; simpl.
  intros Ho Hp Hn.
  do 4 (apply andb_prop in Ho; destruct Ho as [Ho ?]).
  do 4 (apply andb_prop in Hp; destruct Hp as [Hp ?]).
  destruct u_title0 as [|[t|]], u_ingredients0 as [|[i|]],
    u_steps0 as [|[s|]]; simpl in *; try discriminate;
  destruct u_description0 as [|[d|]], u_prep_time_minutes0 as [|[a|]],
    u_cook_time_minutes0 as [|[b|]], u_servings0 as [|[c|]]; simpl in *;
  repeat match goal with H : _ = true |- _ => rewrite H; clear H end;
  reflexivity.
Qed.

Lemma Recipe_new_null_title (old : Recipe) (p : RecipeUpdate) (now : datetime) :
  no_null_on_required p = false ->
  Recipe_new (set_updated_at (merge_update (Recipe_model_dump old) p) now)
  = None.
Proof.
  unfold no_null_on_required, Recipe_new; destruct old, p; simpl.
  destruct u_title0 as [|[t|]], u_ingredients0 as [|[i|]],
    u_steps0 as [|[s|]]; simpl; intros H; try discriminate; reflexivity.
Qed.

(** ** The dict operations *)

Lemma dict_get_In (k : Z) (d : Dict) (r : Recipe) :
  dict_get k d = Some r -> In (k, r) d.
Proof.
  induction d as [|[k' v] t IH]; simpl; [discriminate|].
  destruct (Z.eqb_spec k k') as [->|N].
  - intros H; inversion H; auto.
  - auto.
Qed.

Lemma dict_get_None (k : Z) (d : Dict) :
  dict_get k d = None <-> ~ In k (dict_keys d).
Proof.
  induction d as [|[k' v] t IH]; simpl.
  - tauto.
  - destruct (Z.eqb_spec k k') as [->|N].
    + split; [discriminate | intros H; exfalso; auto].
    + rewrite IH; split; [intros H [E|I]; [congruence | auto] | tauto].
Qed.

Lemma dict_set_absent (k : Z) (v : Recipe) (d : Dict) :
  dict_get k d = None -> dict_set k v d = (d ++ [(k, v)])%list.
Proof.
  induction d as [|[k' v'] t IH]; simpl; [reflexivity|].
  destruct (k =? k'); [discriminate|].
  intros H; rewrite IH by exact H; reflexivity.
Qed.

Lemma dict_set_present (k : Z) (v : Recipe) (d : Dict) :
  NoDup (dict_keys d) ->
  dict_set k v d = map (fun e => if k =? fst e then (k, v) else e) d
  \/ dict_get k d = None.
Proof.
  induction d as [|[k' v'] t IH]; simpl; [auto|].
  intros ND; inversion ND as [|? ? Hn ND']; subst.
  destruct (Z.eqb_spec k k') as [->|N].
  - left; f_equal.
    rewrite <- (map_id t) at 1; apply map_ext_in.
    intros [k2 v2] I; simpl.
    destruct (Z.eqb_spec k' k2) as [->|]; [|reflexivity].
    exfalso; apply Hn; change k2 with (fst (k2, v2)); apply in_map; exact I.
  - destruct (IH ND') as [E|E]; [left; rewrite E; reflexivity | right; exact E].
Qed.

Lemma dict_set_replace (k : Z) (v old : Recipe) (d : Dict) :
  NoDup (dict_keys d) ->
  dict_get k d = Some old ->
  dict_set k v d = map (fun e => if k =? fst e then (k, v) else e) d.
Proof.
  intros ND G; destruct (dict_set_present k v d ND) as [E|E];
    [exact E | congruence].
Qed.

Lemma dict_get_set_same (k : Z) (v : Recipe) (d : Dict) :
  dict_get k (dict_set k v d) = Some v.
Proof.
  induction d as [|[k' v'] t IH]; simpl.
  - rewrite Z.eqb_refl; reflexivity.
  - destruct (Z.eqb_spec k k') as [->|N]; simpl.
    + rewrite Z.eqb_refl; reflexivity.
    + destruct (Z.eqb_spec k k'); [contradiction | exact IH].
Qed.

Lemma dict_get_set_other (k k' : Z) (v : Recipe) (d : Dict) :
  k' <> k -> dict_get k' (dict_set k v d) = dict_get k' d.
Proof.
  intros N; induction d as [|[k2 v2] t IH]; simpl.
  - destruct (Z.eqb_spec k' k); [contradiction | reflexivity].
  - destruct (Z.eqb_spec k k2) as [->|N2]; simpl.
    + destruct (Z.eqb_spec k' k2); [contradiction | reflexivity].
    + rewrite IH; reflexivity.
Qed.

Lemma dict_del_incl (k : Z) (d : Dict) (e : Z * Recipe) :
  In e (dict_del k d) -> In e d.
Proof.
  induction d as [|[k' v'] t IH]; simpl; [tauto|].
  destruct (k =? k'); simpl; [auto | intros [E|I]; auto].
Qed.

Lemma dict_del_keys_incl (k k' : Z) (d : Dict) :
  In k' (dict_keys (dict_del k d)) -> In k' (dict_keys d).
Proof.
  unfold dict_keys; rewrite !in_map_iff.
  intros [e [E I]]; exists e; split; [exact E | eapply dict_del_incl; exact I].
Qed.

Lemma dict_del_NoDup (k : Z) (d : Dict) :
  NoDup (dict_keys d) -> NoDup (dict_keys (dict_del k d)).
Proof.
  induction d as [|[k' v'] t IH]; simpl; [auto|].
  intros ND; inversion ND as [|? ? Hn ND']; subst.
  destruct (k =? k'); simpl; [exact ND'|].
  constructor; [|auto].
  intros I; apply Hn; eapply dict_del_keys_incl; exact I.
Qed.

Lemma dict_del_gone (k : Z) (d : Dict) :
  NoDup (dict_keys d) -> dict_get k (dict_del k d) = None.
Proof.
  induction d as [|[k' v'] t IH]; simpl; [reflexivity|].
  intros ND; inversion ND as [|? ? Hn ND']; subst.
  destruct (Z.eqb_spec k k') as [->|N]; simpl.
  - apply dict_get_None; exact Hn.
  - destruct (Z.eqb_spec k k'); [contradiction | auto].
Qed.

Lemma dict_get_del_other (k k' : Z) (d : Dict) :
  k' <> k -> dict_get k' (dict_del k d) = dict_get k' d.
Proof.
  intros N; induction d as [|[k2 v2] t IH]; simpl; [reflexivity|].
  destruct (Z.eqb_spec k k2) as [->|N2]; simpl.
  - destruct (Z.eqb_spec k' k2); [contradiction | reflexivity].
  - rewrite IH; reflexivity.
Qed.

(** ** Request schemas produce valid models *)

Lemma required_ok {A : Type} (ok : A -> bool) (f : Presence A) (a : A) :
  required ok f = Some a -> ok a = true /\ f = Provided (Some a).
Proof.
  destruct f as [|[x|]]; simpl; try discriminate.
  destruct (ok x) eqn:E; [|discriminate].
  intros H; inversion H; subst; auto.
Qed.

Lemma optional_ok {A : Type} (ok : A -> bool) (f : Presence A) (o : option A) :
  optional ok f = Some o -> opt_ok ok o = true.
Proof.
  destruct f as [|[x|]]; simpl;
    try solve [intros H; inversion H; reflexivity].
  destruct (ok x) eqn:E; [|discriminate].
  intros H; inversion H; subst; exact E.
Qed.

Lemma optional_set_ok {A : Type} (ok : A -> bool) (f g : Presence A) :
  optional_set ok f = Some g ->
  g = f /\ match g with Provided (Some a) => ok a = true | _ => True end.
Proof.
  destruct f as [|[x|]]; simpl;
    try solve [intros H; inversion H; subst; auto].
  destruct (ok x) eqn:E; [|discriminate].
  intros H; inversion H; subst; auto.
Qed.

Section Behaviour.

Variable clock : nat -> datetime.
Variable HttpUrl_parse : string -> option HttpUrl.

Lemma RecipeCreate_validate_valid (b : Body) (p : RecipeCreate) :
  RecipeCreate_validate HttpUrl_parse b = Some p -> payload_valid p = true.
Proof.
  unfold RecipeCreate_validate, payload_valid.
  destruct (required _ _) as [t|] eqn:Et; [|discriminate].
  destruct (optional _ (b_description b)) as [d|] eqn:Ed; [|discriminate].
  destruct (with_default _ (b_ingredients b)); [|discriminate].
  destruct (with_default _ (b_steps b)); [|discriminate].
  destruct (optional_url _ _); [|discriminate].
  destruct (optional _ (b_prep_time_minutes b)) as [pt|] eqn:Ep;
    [|discriminate].
  destruct (optional _ (b_cook_time_minutes b)) as [ct|] eqn:Ec;
    [|discriminate].
  destruct (optional _ (b_servings b)) as [sv|] eqn:Es; [|discriminate].
  intros H; inversion H; subst; simpl.
  apply required_ok in Et; destruct Et as [Et _].
  apply optional_ok in Ed, Ep, Ec, Es.
  rewrite Et, Ed, Ep, Ec, Es; reflexivity.
Qed.

Lemma RecipeUpdate_validate_valid (b : Body) (p : RecipeUpdate) :
  RecipeUpdate_validate HttpUrl_parse b = Some p -> update_valid p = true.
Proof.
  unfold RecipeUpdate_validate, update_valid.
  destruct (optional_set _ (b_title b)) as [t|] eqn:Et; [|discriminate].
  destruct (optional_set _ (b_description b)) as [d|] eqn:Ed;
    [|discriminate].
  destruct (optional_set _ (b_ingredients b)); [|discriminate].
  destruct (optional_set _ (b_steps b)); [|discriminate].
  destruct (optional_set_url _ _); [|discriminate].
  destruct (optional_set _ (b_prep_time_minutes b)) as [pt|] eqn:Ep;
    [|discriminate].
  destruct (optional_set _ (b_cook_time_minutes b)) as [ct|] eqn:Ec;
    [|discriminate].
  destruct (optional_set _ (b_servings b)) as [sv|] eqn:Es; [|discriminate].
  intros H; inversion H; subst; simpl.
  apply optional_set_ok in Et, Ed, Ep, Ec, Es.
  destruct Et as [_ Et], Ed as [_ Ed], Ep as [_ Ep], Ec as [_ Ec],
    Es as [_ Es].
  destruct t as [|[?|]], d as [|[?|]], pt as [|[?|]], ct as [|[?|]],
    sv as [|[?|]];
    repeat match goal with H : _ = true |- _ => rewrite H; clear H end;
    reflexivity.
Qed.

(** ** What each handler computes *)

Lemma _ensure_seed_eq (st : State) :
  _ensure_seed clock st = (Return tt, seed_state clock st).
Proof. destruct st as [[|e db] c t]; reflexivity. Qed.

Lemma seed_state_nonempty (st : State) :
  _db st <> [] -> seed_state clock st = st.
Proof.
  unfold seed_state; destruct (_db st); [congruence | reflexivity].
Qed.

Lemma seed_state_seeded (st : State) :
  _db (seed_state clock st) <> [].
Proof.
  unfold seed_state; destruct (_db st) eqn:E; simpl;
    [discriminate | rewrite E; discriminate].
Qed.

Lemma list_recipes_eq (st : State) :
  list_recipes clock st
  = (Return (dict_values (_db (seed_state clock st))), seed_state clock st).
Proof.
  unfold list_recipes, bind; rewrite _ensure_seed_eq; reflexivity.
Qed.

Lemma get_recipe_eq (k : Z) (st : State) :
  get_recipe clock k st
  = match dict_get k (_db (seed_state clock st)) with
    | Some r => (Return r, seed_state clock st)
    | None => (HTTPException 404 "Recipe not found", seed_state clock st)
    end.
Proof.
  unfold get_recipe, bind; rewrite _ensure_seed_eq; simpl.
  destruct (dict_get k _); reflexivity.
Qed.

Lemma create_recipe_eq (p : RecipeCreate) (st : State) :
  payload_valid p = true ->
  create_recipe clock p st
  = let s := seed_state clock st in
    let rid := _id_counter s + 1 in
    let r := recipe_of_payload rid (clock (ticks s)) (clock (ticks s)) p in
    (Return r, mkState (dict_set rid r (_db s)) rid (S (ticks s))).
Proof.
  intros V; unfold create_recipe, bind; rewrite _ensure_seed_eq; simpl.
  unfold construct; simpl; rewrite Recipe_new_payload by exact V.
  reflexivity.
Qed.

Lemma update_recipe_eq (k : Z) (p : RecipeCreate) (st : State) :
  payload_valid p = true ->
  update_recipe clock k p st
  = let s := seed_state clock st in
    match dict_get k (_db s) with
    | None => (HTTPException 404 "Recipe not found", s)
    | Some existing =>
        let r := recipe_of_payload k (r_created_at existing)
                   (clock (ticks s)) p in
        (Return r, mkState (dict_set k r (_db s)) (_id_counter s)
                     (S (ticks s)))
    end.
Proof.
  intros V; unfold update_recipe, bind; rewrite _ensure_seed_eq; simpl.
  destruct (dict_get k _) as [ex|]; [|reflexivity].
  unfold construct; simpl; rewrite Recipe_new_payload by exact V.
  reflexivity.
Qed.

Lemma patch_recipe_eq (k : Z) (p : RecipeUpdate) (st : State) :
  patch_recipe clock k p st
  = let s := seed_state clock st in
    match dict_get k (_db s) with
    | None => (HTTPException 404 "Recipe not found", s)
    | Some existing =>
        match Recipe_new
                (set_updated_at (merge_update (Recipe_model_dump existing) p)
                   (clock (ticks s))) with
        | Some r =>
            (Return r, mkState (dict_set k r (_db s)) (_id_counter s)
                         (S (ticks s)))
        | None =>
            (ValidationError_in_handler,
             mkState (_db s) (_id_counter s) (S (ticks s)))
        end
    end.
Proof.
  unfold patch_recipe, bind; rewrite _ensure_seed_eq; simpl.
  destruct (dict_get k _) as [ex|]; [|reflexivity].
  unfold construct; simpl.
  destruct (Recipe_new _); reflexivity.
Qed.

Lemma delete_recipe_eq (k : Z) (st : State) :
  delete_recipe clock k st
  = let s := seed_state clock st in
    if dict_contains k (_db s)
    then (Return k, mkState (dict_del k (_db s)) (_id_counter s) (ticks s))
    else (HTTPException 404 "Recipe not found", s).
Proof.
  unfold delete_recipe, bind; rewrite _ensure_seed_eq; simpl.
  destruct (dict_contains k _); reflexivity.
Qed.

End Behaviour.

(** ** Invariants of the store *)

Lemma Forall_dict_set (P : Z * Recipe -> Prop) (k : Z) (v : Recipe) (d : Dict) :
  P (k, v) -> Forall P d -> Forall P (dict_set k v d).
Proof.
  intros Hk; induction 1 as [|[k' v'] t Hp Ht IH]; simpl.
  - constructor; [exact Hk | constructor].
  - destruct (k =? k'); constructor; auto.
Qed.

Lemma Forall_dict_del (P : Z * Recipe -> Prop) (k : Z) (d : Dict) :
  Forall P d -> Forall P (dict_del k d).
Proof.
  induction 1 as [|[k' v'] t Hp Ht IH]; simpl; [constructor|].
  destruct (k =? k'); [exact Ht | constructor; auto].
Qed.

Lemma dict_keys_set (k : Z) (v : Recipe) (d : Dict) :
  dict_keys (dict_set k v d)
  = match dict_get k d with
    | Some _ => dict_keys d
    | None => (dict_keys d ++ [k])%list
    end.
Proof.
  induction d as [|[k' v'] t IH]; simpl; [reflexivity|].
  destruct (Z.eqb_spec k k') as [->|N]; simpl; [reflexivity|].
  rewrite IH; destruct (dict_get k t); reflexivity.
Qed.

Lemma dict_set_NoDup (k : Z) (v : Recipe) (d : Dict) :
  NoDup (dict_keys d) -> NoDup (dict_keys (dict_set k v d)).
Proof.
  intros ND; rewrite dict_keys_set.
  destruct (dict_get k d) eqn:G; [exact ND|].
  apply dict_get_None in G.
  apply NoDup_app; [exact ND | repeat constructor; simpl; tauto |].
  intros x I [<-|[]]; auto.
Qed.

Lemma entry_ok_mono (c c' : Z) (e : Z * Recipe) :
  c <= c' -> entry_ok c e -> entry_ok c' e.
Proof. unfold entry_ok; intros L (A & B & C); repeat split; auto; lia. Qed.

Lemma entry_times_mono (clock : nat -> datetime) (t t' : nat) (e : Z * Recipe) :
  (t <= t')%nat -> entry_times clock t e -> entry_times clock t' e.
Proof.
  unfold entry_times; intros L (A & n & B & C); split; [exact A|].
  exists n; split; [lia | exact C].
Qed.

Lemma store_ok_entry (st : State) (k : Z) (r : Recipe) :
  store_ok st -> dict_get k (_db st) = Some r ->
  r_id r = k /\ 1 <= k <= _id_counter st /\ recipe_valid r = true.
Proof.
  intros (_ & F & _) G; apply dict_get_In in G.
  rewrite Forall_forall in F; exact (F _ G).
Qed.

Lemma store_ok_fresh (st : State) (k : Z) :
  store_ok st -> _id_counter st < k -> dict_get k (_db st) = None.
Proof.
  intros S L; destruct (dict_get k (_db st)) as [r|] eqn:G; [|reflexivity].
  destruct (store_ok_entry st k r S G) as (_ & B & _); lia.
Qed.

Section Invariants.

Variable clock : nat -> datetime.
Variable HttpUrl_parse : string -> option HttpUrl.

Lemma seed_state_ok (st : State) :
  store_ok st -> store_ok (seed_state clock st).
Proof.
  unfold seed_state; destruct (dict_nonempty (_db st)); [auto|].
  intros (_ & _ & C); unfold store_ok, entry_ok; simpl.
  split; [repeat constructor; simpl; tauto|].
  split; [repeat constructor; simpl; lia | lia].
Qed.

Lemma seed_state_counter (st : State) :
  _id_counter st <= _id_counter (seed_state clock st).
Proof.
  unfold seed_state; destruct (dict_nonempty (_db st)); simpl; lia.
Qed.

Lemma seed_state_times (st : State) :
  monotone clock -> times_ok clock st -> times_ok clock (seed_state clock st).
Proof.
  intros Mono; unfold seed_state; destruct (dict_nonempty (_db st)); [auto|].
  intros _; unfold times_ok, entry_times; simpl.
  repeat constructor; simpl; [apply Mono; lia|].
  exists (S (ticks st)); split; [lia | reflexivity].
Qed.

(** Every request keeps the store well formed. *)
Lemma step_store_ok (st : State) (req : Request) :
  store_ok st -> store_ok (step clock HttpUrl_parse st req).
Proof.
  intros S0; pose proof (seed_state_ok st S0) as S.
  unfold step; destruct req as [| |k|b|k b|k b|k]; simpl; unfold bind.
  - exact S0.
  - rewrite list_recipes_eq; exact S.
  - destruct (path_ok k); [|exact S0].
    rewrite get_recipe_eq; destruct (dict_get k _); exact S.
  - destruct (RecipeCreate_validate _ b) as [p|] eqn:V; [|exact S0].
    apply RecipeCreate_validate_valid in V.
    rewrite create_recipe_eq by exact V; simpl.
    destruct S as (ND & F & C); unfold store_ok; simpl.
    split; [apply dict_set_NoDup; exact ND|].
    split; [|lia].
    apply Forall_dict_set.
    + unfold entry_ok; simpl; repeat split; try lia.
      apply recipe_of_payload_valid; exact V.
    + eapply Forall_impl; [|exact F].
      intros e; apply entry_ok_mono; lia.
  - destruct (path_ok k); [|exact S0].
    destruct (RecipeCreate_validate _ b) as [p|] eqn:V; [|exact S0].
    apply RecipeCreate_validate_valid in V.
    rewrite update_recipe_eq by exact V; simpl.
    destruct (dict_get k _) as [ex|] eqn:G; [|exact S]; simpl.
    destruct (store_ok_entry _ k ex S G) as (_ & B & _).
    destruct S as (ND & F & C); unfold store_ok; simpl.
    split; [apply dict_set_NoDup; exact ND|].
    split; [|exact C].
    apply Forall_dict_set; [|exact F].
    unfold entry_ok; simpl; repeat split; try lia.
    apply recipe_of_payload_valid; exact V.
  - destruct (path_ok k); [|exact S0].
    destruct (RecipeUpdate_validate _ b) as [p|] eqn:V; [|exact S0].
    rewrite patch_recipe_eq; simpl.
    destruct (dict_get k _) as [ex|] eqn:G; [|exact S]; simpl.
    destruct (store_ok_entry _ k ex S G) as (I & B & _).
    destruct (Recipe_new _) as [r|] eqn:N; simpl; [|exact S].
    pose proof (Recipe_new_valid _ _ N) as Vr.
    assert (r_id r = k) as Ir.
    { apply Recipe_new_managed in N; destruct N as (E & _).
      rewrite E; exact I. }
    destruct S as (ND & F & C); unfold store_ok; simpl.
    split; [apply dict_set_NoDup; exact ND|].
    split; [|exact C].
    apply Forall_dict_set; [|exact F].
    unfold entry_ok; simpl; repeat split; auto; lia.
  - destruct (path_ok k); [|exact S0].
    rewrite delete_recipe_eq; simpl.
    destruct (dict_contains k _); [|exact S]; simpl.
    destruct S as (ND & F & C); unfold store_ok; simpl.
    split; [apply dict_del_NoDup; exact ND|].
    split; [apply Forall_dict_del; exact F | exact C].
Qed.

Lemma initial_store_ok : store_ok initial_state.
Proof.
  unfold store_ok; simpl; split; [constructor | split; [constructor | lia]].
Qed.

Lemma run_store_ok (reqs : list Request) (st : State) :
  store_ok st -> store_ok (run clock HttpUrl_parse reqs st).
Proof.
  revert st; induction reqs as [|req reqs IH]; simpl; intros st S;
    [exact S | apply IH, step_store_ok, S].
Qed.

Lemma run_app (l1 l2 : list Request) (st : State) :
  run clock HttpUrl_parse (l1 ++ l2) st
  = run clock HttpUrl_parse l2 (run clock HttpUrl_parse l1 st).
Proof. unfold run; apply fold_left_app. Qed.

End Invariants.

(** ** Ids along a run *)

Lemma dict_keys_set_In (k k' : Z) (v : Recipe) (d : Dict) :
  In k' (dict_keys (dict_set k v d)) -> k' = k \/ In k' (dict_keys d).
Proof.
  rewrite dict_keys_set; destruct (dict_get k d); [auto|].
  rewrite in_app_iff; simpl; intuition.
Qed.

Section Ids.

Variable clock : nat -> datetime.
Variable HttpUrl_parse : string -> option HttpUrl.

Lemma seed_state_keys (st : State) (k : Z) :
  In k (dict_keys (_db (seed_state clock st))) ->
  In k (dict_keys (_db st)) \/ _id_counter st < k.
Proof.
  unfold seed_state; destruct (dict_nonempty (_db st)); [auto|]; simpl.
  intros [<-|[]]; right; lia.
Qed.

(** The counter never goes down. *)
Lemma step_counter (st : State) (req : Request) :
  _id_counter st <= _id_counter (step clock HttpUrl_parse st req).
Proof.
  pose proof (seed_state_counter clock st) as L.
  unfold step; destruct req as [| |k|b|k b|k b|k]; simpl; unfold bind.
  - lia.
  - rewrite list_recipes_eq; exact L.
  - destruct (path_ok k); [|simpl; lia].
    rewrite get_recipe_eq; destruct (dict_get k _); exact L.
  - destruct (RecipeCreate_validate _ b) as [p|] eqn:V; [|simpl; lia].
    apply RecipeCreate_validate_valid in V.
    rewrite create_recipe_eq by exact V; simpl; lia.
  - destruct (path_ok k); [|simpl; lia].
    destruct (RecipeCreate_validate _ b) as [p|] eqn:V; [|simpl; lia].
    apply RecipeCreate_validate_valid in V.
    rewrite update_recipe_eq by exact V; simpl.
    destruct (dict_get k _); exact L.
  - destruct (path_ok k); [|simpl; lia].
    destruct (RecipeUpdate_validate _ b) as [p|]; [|simpl; lia].
    rewrite patch_recipe_eq; simpl.
    destruct (dict_get k _); [|exact L].
    destruct (Recipe_new _); exact L.
  - destruct (path_ok k); [|simpl; lia].
    rewrite delete_recipe_eq; simpl.
    destruct (dict_contains k _); exact L.
Qed.

(** A key that a request adds to the store lies above the counter the
    request started from. *)
Lemma step_new_key (st : State) (req : Request) (k : Z) :
  store_ok st ->
  In k (dict_keys (_db (step clock HttpUrl_parse st req))) ->
  In k (dict_keys (_db st)) \/ _id_counter st < k.
Proof.
  intros S0; pose proof (seed_state_keys st k) as K.
  pose proof (seed_state_counter clock st) as L.
  pose proof (seed_state_ok clock st S0) as S.
  unfold step; destruct req as [| |i|b|i b|i b|i]; simpl; unfold bind.
  - auto.
  - rewrite list_recipes_eq; exact K.
  - destruct (path_ok i); [|auto].
    rewrite get_recipe_eq; destruct (dict_get i _); exact K.
  - destruct (RecipeCreate_validate _ b) as [p|] eqn:V; [|auto].
    apply RecipeCreate_validate_valid in V.
    rewrite create_recipe_eq by exact V; simpl.
    intros I; apply dict_keys_set_In in I; destruct I as [->|I];
      [right; lia | auto].
  - destruct (path_ok i); [|auto].
    destruct (RecipeCreate_validate _ b) as [p|] eqn:V; [|auto].
    apply RecipeCreate_validate_valid in V.
    rewrite update_recipe_eq by exact V; simpl.
    destruct (dict_get i _) eqn:G; [|exact K]; simpl.
    rewrite dict_keys_set, G; exact K.
  - destruct (path_ok i); [|auto].
    destruct (RecipeUpdate_validate _ b) as [p|]; [|auto].
    rewrite patch_recipe_eq; simpl.
    destruct (dict_get i _) eqn:G; [|exact K].
    destruct (Recipe_new _); simpl; [|exact K].
    rewrite dict_keys_set, G; exact K.
  - destruct (path_ok i); [|auto].
    rewrite delete_recipe_eq; simpl.
    destruct (dict_contains i _); [|exact K]; simpl.
    intros I; apply dict_del_keys_incl in I; auto.
Qed.

Lemma run_counter (reqs : list Request) (st : State) :
  _id_counter st <= _id_counter (run clock HttpUrl_parse reqs st).
Proof.
  revert st; induction reqs as [|req reqs IH]; simpl; intros st; [lia|].
  pose proof (step_counter st req); pose proof (IH (step clock HttpUrl_parse st req)).
  lia.
Qed.

(** An id at or below the counter that is not in the store stays out of it
    for good. *)
Lemma run_retired (reqs : list Request) (st : State) (k : Z) :
  store_ok st -> k <= _id_counter st -> ~ In k (dict_keys (_db st)) ->
  ~ In k (dict_keys (_db (run clock HttpUrl_parse reqs st))).
Proof.
  revert st; induction reqs as [|req reqs IH]; simpl; intros st S L N;
    [exact N|].
  apply IH.
  - apply step_store_ok; exact S.
  - pose proof (step_counter st req); lia.
  - intros I; apply (step_new_key st req k S) in I; destruct I; [auto | lia].
Qed.

Lemma store_ok_key_le (st : State) (k : Z) :
  store_ok st -> In k (dict_keys (_db st)) -> 1 <= k <= _id_counter st.
Proof.
  intros (_ & F & _); unfold dict_keys; rewrite in_map_iff.
  intros [e [<- I]]; rewrite Forall_forall in F.
  destruct (F e I) as (_ & B & _); exact B.
Qed.

Lemma store_ok_ids_NoDup (st : State) :
  store_ok st -> NoDup (map r_id (dict_values (_db st))).
Proof.
  intros (ND & F & _); unfold dict_values; rewrite map_map.
  replace (map (fun e => r_id (snd e)) (_db st)) with (dict_keys (_db st));
    [exact ND|].
  unfold dict_keys; apply map_ext_in; intros e I.
  rewrite Forall_forall in F; destruct (F e I) as (E & _); auto.
Qed.

Lemma next_ids_from (n : nat) (st : State) :
  fst (next_ids n st)
  = map (fun i => _id_counter st + Z.of_nat i) (seq 1 n)
  /\ _id_counter (snd (next_ids n st)) = _id_counter st + Z.of_nat n.
Proof.
  revert st; induction n as [|n IH]; intros st; simpl; [split; [auto | lia]|].
  destruct (IH (mkState (_db st) (_id_counter st + 1) (ticks st))) as [E1 E2].
  destruct (next_ids n _) as [l st'']; simpl in *.
  split; [|lia].
  f_equal; try lia.
  rewrite E1, <- (seq_shift n 1), map_map; apply map_ext; intros i; lia.
Qed.

End Ids.

Lemma next_ids_nth (n : nat) (st : State) (i : nat) (a : Z) :
  nth_error (fst (next_ids n st)) i = Some a ->
  a = _id_counter st + Z.of_nat (S i).
Proof.
  revert st i; induction n as [|n IH]; intros st i; simpl.
  - destruct i; discriminate.
  - pose proof (IH (mkState (_db st) (_id_counter st + 1) (ticks st))) as H.
    destruct (next_ids n _) as [l st'']; simpl in *.
    destruct i as [|i]; simpl.
    + intros E; inversion E; lia.
    + intros E; apply H in E; lia.
Qed.

(** * Main results *)

(** C4. [_next_id] returns the counter plus one and stores it, changing
    nothing else; [n] successive calls from the start of the process return
    [1, 2, ..., n], and in any state a later call returns a strictly larger
    value than an earlier one, also when requests are served in between.
    Consequently, after any sequence of requests
    the ids of the stored recipes are pairwise distinct, every stored record
    sits under its own id, which the counter has issued, and an id that was
    in the store and has left it never comes back. *)
Theorem next_id_increasing_ids_never_reused
    (clock : nat -> datetime) (HttpUrl_parse : string -> option HttpUrl) :
  (forall st : State,
      _next_id st
      = (Return (_id_counter st + 1),
         mkState (_db st) (_id_counter st + 1) (ticks st)))
  /\ (forall n : nat,
        fst (next_ids n initial_state) = map Z.of_nat (seq 1 n)
        /\ _id_counter (snd (next_ids n initial_state)) = Z.of_nat n)
  /\ (forall (n : nat) (st : State) (i j : nat) (a b : Z),
        (i < j)%nat ->
        nth_error (fst (next_ids n st)) i = Some a ->
        nth_error (fst (next_ids n st)) j = Some b ->
        a < b)
  /\ (forall (st : State) (between : list Request) (a b : Z),
        fst (_next_id st) = Return a ->
        fst (_next_id (run clock HttpUrl_parse between (snd (_next_id st))))
        = Return b ->
        a < b)
  /\ (forall reqs : list Request,
        let st := run clock HttpUrl_parse reqs initial_state in
        NoDup (map r_id (dict_values (_db st)))
        /\ (forall (k : Z) (r : Recipe),
              dict_get k (_db st) = Some r ->
              r_id r = k /\ 1 <= k <= _id_counter st))
  /\ (forall (reqs1 reqs2 reqs3 : list Request) (k : Z),
        In k (dict_keys (_db (run clock HttpUrl_parse reqs1 initial_state))) ->
        ~ In k (dict_keys
                  (_db (run clock HttpUrl_parse (reqs1 ++ reqs2)
                          initial_state))) ->
        ~ In k (dict_keys
                  (_db (run clock HttpUrl_parse (reqs1 ++ reqs2 ++ reqs3)
                          initial_state)))).
Proof.
  split; [reflexivity|].
  split.
  { intros n; destruct (next_ids_from n initial_state) as [E1 E2].
    rewrite E1, E2; simpl; split; [|lia].
    apply map_ext; intros i; lia. }
  split.
  { intros n st i j a b L Ha Hb.
    apply next_ids_nth in Ha, Hb; lia. }
  split.
  { intros st between a b Ha Hb; simpl in Ha, Hb.
    inversion Ha; inversion Hb; subst.
    pose proof (run_counter clock HttpUrl_parse between
                  (mkState (_db st) (_id_counter st + 1) (ticks st))) as L.
    simpl in L; lia. }
  split.
  { intros reqs st.
    pose proof (run_store_ok clock HttpUrl_parse reqs initial_state
                  initial_store_ok) as S.
    split; [apply store_ok_ids_NoDup; exact S|].
    intros k r G; destruct (store_ok_entry _ k r S G) as (A & B & _); auto. }
  intros reqs1 reqs2 reqs3 k I N.
  rewrite app_assoc, run_app.
  pose proof (run_store_ok clock HttpUrl_parse reqs1 initial_state
                initial_store_ok) as S1.
  pose proof (run_store_ok clock HttpUrl_parse (reqs1 ++ reqs2) initial_state
                initial_store_ok) as S2.
  apply run_retired; [exact S2 | | exact N].
  pose proof (store_ok_key_le _ k S1 I) as B.
  rewrite run_app.
  pose proof (run_counter clock HttpUrl_parse reqs2
                (run clock HttpUrl_parse reqs1 initial_state)).
  lia.
Qed.

(** ** Patch *)

Lemma dict_get_nonempty (k : Z) (d : Dict) (r : Recipe) :
  dict_get k d = Some r -> d <> [].
Proof. destruct d; discriminate. Qed.

Lemma store_ok_path_ok (st : State) (k : Z) (r : Recipe) :
  store_ok st -> dict_get k (_db st) = Some r -> path_ok k = true.
Proof.
  intros S G; destruct (store_ok_entry st k r S G) as (_ & B & _).
  unfold path_ok; apply Z.leb_le; lia.
Qed.

Lemma patch_route_existing (clock : nat -> datetime)
    (HttpUrl_parse : string -> option HttpUrl) (st : State) (rid : Z)
    (body : Body) (p : RecipeUpdate) (old : Recipe) :
  store_ok st ->
  dict_get rid (_db st) = Some old ->
  RecipeUpdate_validate HttpUrl_parse body = Some p ->
  route clock HttpUrl_parse (PATCH_recipe rid body) st
  = match Recipe_new
            (set_updated_at (merge_update (Recipe_model_dump old) p)
               (clock (ticks st))) with
    | Some r =>
        (Return (OneRecipe r),
         mkState (dict_set rid r (_db st)) (_id_counter st) (S (ticks st)))
    | None =>
        (ValidationError_in_handler,
         mkState (_db st) (_id_counter st) (S (ticks st)))
    end.
Proof.
  intros S G V; simpl.
  rewrite (store_ok_path_ok st rid old S G), V.
  unfold bind; rewrite patch_recipe_eq; simpl.
  rewrite (seed_state_nonempty clock st (dict_get_nonempty rid _ old G)), G.
  destruct (Recipe_new _); reflexivity.
Qed.

(** C1. On a stored id, a patch whose payload passes the request schema and
    sets none of [title], [ingredients], [steps] to null returns and stores
    a record in which each of the eight content fields holds the payload's
    value when the payload set it (an empty list or a null included) and the
    stored value when it did not; [id] and [created_at] are kept,
    [updated_at] is the clock reading of the call, and no other record
    changes. *)
Theorem patch_overwrites_exactly_set_fields
    (clock : nat -> datetime) (HttpUrl_parse : string -> option HttpUrl)
    (reqs : list Request) (rid : Z) (body : Body) (p : RecipeUpdate)
    (old : Recipe) :
  let st := run clock HttpUrl_parse reqs initial_state in
  dict_get rid (_db st) = Some old ->
  RecipeUpdate_validate HttpUrl_parse body = Some p ->
  no_null_on_required p = true ->
  exists updated : Recipe,
    route clock HttpUrl_parse (PATCH_recipe rid body) st
    = (Return (OneRecipe updated),
       mkState (dict_set rid updated (_db st)) (_id_counter st)
         (S (ticks st)))
    /\ dict_get rid (dict_set rid updated (_db st)) = Some updated
    /\ (forall k : Z, k <> rid ->
          dict_get k (dict_set rid updated (_db st)) = dict_get k (_db st))
    /\ merged (Some (r_title old)) (u_title p) (Some (r_title updated))
    /\ merged (r_description old) (u_description p) (r_description updated)
    /\ merged (Some (r_ingredients old)) (u_ingredients p)
         (Some (r_ingredients updated))
    /\ merged (Some (r_steps old)) (u_steps p) (Some (r_steps updated))
    /\ merged (r_image_url old) (u_image_url p) (r_image_url updated)
    /\ merged (r_prep_time_minutes old) (u_prep_time_minutes p)
         (r_prep_time_minutes updated)
    /\ merged (r_cook_time_minutes old) (u_cook_time_minutes p)
         (r_cook_time_minutes updated)
    /\ merged (r_servings old) (u_servings p) (r_servings updated)
    /\ r_id updated = r_id old
    /\ r_created_at updated = r_created_at old
    /\ r_updated_at updated = clock (ticks st).
Proof.
  intros st G V N.
  pose proof (run_store_ok clock HttpUrl_parse reqs initial_state
                initial_store_ok) as S; fold st in S.
  destruct (store_ok_entry st rid old S G) as (_ & _ & Vo).
  exists (patched_recipe old p (clock (ticks st))).
  split.
  { rewrite (patch_route_existing clock HttpUrl_parse st rid body p old S G V).
    rewrite (Recipe_new_patched old p (clock (ticks st)) Vo
               (RecipeUpdate_validate_valid HttpUrl_parse body p V) N).
    reflexivity. }
  split; [apply dict_get_set_same|].
  split; [intros k Hk; apply dict_get_set_other; exact Hk|].
  unfold no_null_on_required in N; unfold merged, patched_recipe; simpl.
  destruct (u_title p) as [|[?|]], (u_ingredients p) as [|[?|]],
    (u_steps p) as [|[?|]]; try discriminate;
  destruct (u_description p), (u_image_url p), (u_prep_time_minutes p),
    (u_cook_time_minutes p), (u_servings p); simpl;
  repeat split; reflexivity.
Qed.

(** The example of a record with title "X" and servings 4, patched with
    [{"servings": 2}]. *)
Lemma patch_overwrites_exactly_set_fields_witness :
  let st := run example_clock example_url
              [POST_recipes body_title_X_servings_4] initial_state in
  let p := mkRecipeUpdate Unset Unset Unset Unset Unset Unset Unset
             (Provided (Some 2)) in
  let old := mkRecipe "X" None [] [] None None None (Some 4) 2 1002 1002 in
  dict_get 2 (_db st) = Some old
  /\ RecipeUpdate_validate example_url body_servings_2 = Some p
  /\ no_null_on_required p = true
  /\ exists updated : Recipe,
       fst (route example_clock example_url (PATCH_recipe 2 body_servings_2)
              st)
       = Return (OneRecipe updated)
       /\ r_title updated = "X" /\ r_servings updated = Some 2.
Proof.
  intros st p old.
  split; [reflexivity|].
  split; [reflexivity|].
  split; [reflexivity|].
  destruct (patch_overwrites_exactly_set_fields example_clock example_url
              [POST_recipes body_title_X_servings_4] 2 body_servings_2 p old
              eq_refl eq_refl eq_refl)
    as (updated & R & _ & _ & T & _ & _ & _ & _ & _ & _ & Sv & _).
  exists updated; split; [fold st in R; rewrite R; reflexivity|].
  split; [inversion T; reflexivity | exact Sv].
Defined.

Lemma RecipeUpdate_validate_empty (HttpUrl_parse : string -> option HttpUrl) :
  RecipeUpdate_validate HttpUrl_parse empty_body
  = Some (mkRecipeUpdate Unset Unset Unset Unset Unset Unset Unset Unset).
Proof. reflexivity. Qed.

(** C2. On a stored id, a patch with the empty payload returns and stores the
    stored record with every field as it was, except [updated_at], which is
    the clock reading of the call; the other records do not change. *)
Theorem patch_empty_payload_refreshes_only_updated_at
    (clock : nat -> datetime) (HttpUrl_parse : string -> option HttpUrl)
    (reqs : list Request) (rid : Z) (old : Recipe) :
  let st := run clock HttpUrl_parse reqs initial_state in
  dict_get rid (_db st) = Some old ->
  let updated :=
    mkRecipe (r_title old) (r_description old) (r_ingredients old)
      (r_steps old) (r_image_url old) (r_prep_time_minutes old)
      (r_cook_time_minutes old) (r_servings old) (r_id old)
      (r_created_at old) (clock (ticks st)) in
  route clock HttpUrl_parse (PATCH_recipe rid empty_body) st
  = (Return (OneRecipe updated),
     mkState (dict_set rid updated (_db st)) (_id_counter st) (S (ticks st)))
  /\ dict_get rid (dict_set rid updated (_db st)) = Some updated
  /\ (forall k : Z, k <> rid ->
        dict_get k (dict_set rid updated (_db st)) = dict_get k (_db st)).
Proof.
  intros st G updated.
  pose proof (run_store_ok clock HttpUrl_parse reqs initial_state
                initial_store_ok) as S; fold st in S.
  destruct (store_ok_entry st rid old S G) as (_ & _ & Vo).
  split.
  { rewrite (patch_route_existing clock HttpUrl_parse st rid empty_body _ old
               S G (RecipeUpdate_validate_empty HttpUrl_parse)).
    rewrite (Recipe_new_patched old
               (mkRecipeUpdate Unset Unset Unset Unset Unset Unset Unset Unset)
               (clock (ticks st)) Vo eq_refl eq_refl).
    reflexivity. }
  split; [apply dict_get_set_same|].
  intros k Hk; apply dict_get_set_other; exact Hk.
Qed.

(** The seed record right after the first listing, patched with [{}]. *)
Lemma patch_empty_payload_refreshes_only_updated_at_witness :
  let st := run example_clock example_url [GET_recipes] initial_state in
  dict_get 1 (_db st) = Some (sample_recipe 1 1000 1001)
  /\ route example_clock example_url (PATCH_recipe 1 empty_body) st
     = (Return (OneRecipe (sample_recipe 1 1000 1002)),
        mkState [(1, sample_recipe 1 1000 1002)] 1 3).
Proof.
  intros st; split; [reflexivity|].
  exact (proj1 (patch_empty_payload_refreshes_only_updated_at example_clock
                  example_url [GET_recipes] 1 (sample_recipe 1 1000 1001)
                  eq_refl)).
Defined.

(** ** Outcomes *)

(** Every request to a well-formed store ends in a documented outcome, except
    a patch of a stored id whose payload passed the request schema with
    [title], [ingredients] or [steps] set to null: the [Recipe] constructor
    refuses the merged data inside the handler. *)
Lemma route_outcomes (clock : nat -> datetime)
    (HttpUrl_parse : string -> option HttpUrl) (st : State) (req : Request) :
  store_ok st ->
  documented (fst (route clock HttpUrl_parse req st))
  \/ exists (rid : Z) (body : Body) (p : RecipeUpdate) (old : Recipe),
       req = PATCH_recipe rid body
       /\ RecipeUpdate_validate HttpUrl_parse body = Some p
       /\ dict_get rid (_db (seed_state clock st)) = Some old
       /\ no_null_on_required p = false
       /\ fst (route clock HttpUrl_parse req st) = ValidationError_in_handler.
Proof.
  intros S0; pose proof (seed_state_ok clock st S0) as S.
  destruct req as [| |k|b|k b|k b|k]; simpl; unfold bind.
  - left; exact I.
  - left; rewrite list_recipes_eq; exact I.
  - left; destruct (path_ok k); [|exact I].
    rewrite get_recipe_eq; destruct (dict_get k _); simpl; auto.
  - left; destruct (RecipeCreate_validate _ b) as [p|] eqn:V; [|exact I].
    apply RecipeCreate_validate_valid in V.
    rewrite create_recipe_eq by exact V; exact I.
  - left; destruct (path_ok k); [|exact I].
    destruct (RecipeCreate_validate _ b) as [p|] eqn:V; [|exact I].
    apply RecipeCreate_validate_valid in V.
    rewrite update_recipe_eq by exact V; simpl.
    destruct (dict_get k _); simpl; auto.
  - destruct (path_ok k); [|left; exact I].
    destruct (RecipeUpdate_validate _ b) as [p|] eqn:V; [|left; exact I].
    rewrite patch_recipe_eq; simpl.
    destruct (dict_get k _) as [old|] eqn:G; [|left; simpl; auto].
    destruct (store_ok_entry _ k old S G) as (_ & _ & Vo).
    destruct (no_null_on_required p) eqn:N.
    + rewrite (Recipe_new_patched old p _ Vo
                 (RecipeUpdate_validate_valid HttpUrl_parse b p V) N).
      left; exact I.
    + rewrite (Recipe_new_null_title old p _ N).
      right; exists k, b, p, old; auto.
  - left; destruct (path_ok k); [|exact I].
    rewrite delete_recipe_eq; simpl.
    destruct (dict_contains k _); simpl; auto.
Qed.

(** After any sequence of requests, every request ends in a returned
    result, the 404 "Recipe not found" or the request validation error, with
    one exception: a patch of a stored id whose payload passed the request
    schema with [title], [ingredients] or [steps] set to null. *)
Theorem requests_end_in_documented_outcomes_or_null_patch
    (clock : nat -> datetime) (HttpUrl_parse : string -> option HttpUrl)
    (reqs : list Request) (req : Request) :
  let st := run clock HttpUrl_parse reqs initial_state in
  documented (fst (route clock HttpUrl_parse req st))
  \/ exists (rid : Z) (body : Body) (p : RecipeUpdate) (old : Recipe),
       req = PATCH_recipe rid body
       /\ RecipeUpdate_validate HttpUrl_parse body = Some p
       /\ dict_get rid (_db (seed_state clock st)) = Some old
       /\ no_null_on_required p = false
       /\ fst (route clock HttpUrl_parse req st) = ValidationError_in_handler.
Proof.
  intros st; apply route_outcomes, run_store_ok, initial_store_ok.
Qed.

(** C3. The code leaves the documented outcomes on a schema-accepted patch:
    after the first listing, the body [{"title": null}] passes the
    [RecipeUpdate] schema, id 1 is stored, and PATCH /recipes/1 ends in the
    validation error raised by the [Recipe] constructor inside the handler,
    which is neither a returned record, nor the 404 [HTTPException], nor the
    request-schema rejection; the store keeps the old record. *)
Theorem patch_null_title_raises_in_handler
    (clock : nat -> datetime) (HttpUrl_parse : string -> option HttpUrl) :
  let st := run clock HttpUrl_parse [GET_recipes] initial_state in
  RecipeUpdate_validate HttpUrl_parse body_title_null
  = Some (mkRecipeUpdate (Provided None) Unset Unset Unset Unset Unset Unset
            Unset)
  /\ dict_get 1 (_db st) = Some (sample_recipe 1 (clock 0%nat) (clock 1%nat))
  /\ route clock HttpUrl_parse (PATCH_recipe 1 body_title_null) st
     = (ValidationError_in_handler, mkState (_db st) 1 3)
  /\ ~ documented
         (fst (route clock HttpUrl_parse (PATCH_recipe 1 body_title_null) st)).
Proof.
  intros st; repeat split; try reflexivity.
  intros H; exact H.
Qed.

(** ** Create *)

Lemma optional_None {A : Type} (ok : A -> bool) (f : Presence A) :
  optional ok f = None <-> exists a, f = Provided (Some a) /\ ok a = false.
Proof.
  destruct f as [|[a|]]; simpl.
  - split; [discriminate | intros (a & E & _); discriminate].
  - destruct (ok a) eqn:E.
    + split; [discriminate | intros (x & Ex & F); inversion Ex; congruence].
    + split; [intros _; exists a; auto | reflexivity].
  - split; [discriminate | intros (a & E & _); discriminate].
Qed.

Lemma create_input_invalid_iff (HttpUrl_parse : string -> option HttpUrl)
    (b : Body) :
  create_input_invalid HttpUrl_parse b
  <-> RecipeCreate_validate HttpUrl_parse b = None.
Proof.
  unfold create_input_invalid, RecipeCreate_validate.
  destruct b as [t d i s u p c v]; simpl.
  assert (Ht : required title_ok t = None
               <-> match t with
                   | Provided (Some x) =>
                       String.length x = 0%nat \/ (200 < String.length x)%nat
                   | _ => True
                   end).
  { destruct t as [|[x|]]; simpl; try tauto.
    unfold title_ok.
    destruct (Nat.leb_spec 1 (String.length x)),
      (Nat.leb_spec (String.length x) 200); simpl;
      split; try discriminate; try reflexivity; intros; lia. }
  assert (Hd : optional description_ok d = None
               <-> exists x, d = Provided (Some x)
                             /\ (2000 < String.length x)%nat).
  { rewrite optional_None; unfold description_ok.
    split; intros (x & E & H); exists x; split; auto.
    - apply Nat.leb_gt; exact H.
    - apply Nat.leb_gt; exact H. }
  assert (Hi : with_default [] i = None <-> i = Provided None).
  { destruct i as [|[x|]]; simpl; split; congruence. }
  assert (Hs : with_default [] s = None <-> s = Provided None).
  { destruct s as [|[x|]]; simpl; split; congruence. }
  assert (Hu : optional_url HttpUrl_parse u = None
               <-> exists x, u = Provided (Some x) /\ HttpUrl_parse x = None).
  { destruct u as [|[x|]]; simpl.
    - split; [discriminate | intros (x & E & _); discriminate].
    - destruct (HttpUrl_parse x) eqn:E.
      + split; [discriminate | intros (y & Ey & F); inversion Ey; congruence].
      + split; [intros _; exists x; auto | reflexivity].
    - split; [discriminate | intros (x & E & _); discriminate]. }
  assert (Hge : forall lo f,
             optional (ge_ok lo) f = None
             <-> exists n, f = Provided (Some n) /\ n < lo).
  { intros lo f; rewrite optional_None; unfold ge_ok.
    split; intros (n & E & H); exists n; split; auto.
    - apply Z.leb_gt; exact H.
    - apply Z.leb_gt; exact H. }
  rewrite <- Ht, <- Hd, <- Hi, <- Hs, <- Hu, <- !Hge.
  destruct (required title_ok t), (optional description_ok d),
    (with_default [] i), (with_default [] s), (optional_url HttpUrl_parse u),
    (optional (ge_ok 0) p), (optional (ge_ok 0) c), (optional (ge_ok 1) v);
    split; intros H; try reflexivity; try discriminate; try tauto;
    repeat (destruct H as [H|H]; try discriminate).
Qed.

(** C7. A create body that breaks a declared field constraint (an empty
    title, servings 0, ...) is answered with the request validation error and
    leaves the state as it was: the same records in the same order, no id
    consumed, no seeding; so a listing before and one after agree. *)
Theorem invalid_create_is_rejected_and_store_unchanged
    (clock : nat -> datetime) (HttpUrl_parse : string -> option HttpUrl)
    (body : Body) (st : State) :
  create_input_invalid HttpUrl_parse body ->
  route clock HttpUrl_parse (POST_recipes body) st
  = (RequestValidationError, st)
  /\ route clock HttpUrl_parse GET_recipes
       (step clock HttpUrl_parse st (POST_recipes body))
     = route clock HttpUrl_parse GET_recipes st.
Proof.
  intros H; apply create_input_invalid_iff in H.
  unfold step; simpl; rewrite H; simpl; auto.
Qed.

(** A create with servings 0 after the first listing. *)
Lemma invalid_create_is_rejected_and_store_unchanged_witness :
  let st := run example_clock example_url [GET_recipes] initial_state in
  create_input_invalid example_url body_servings_0
  /\ route example_clock example_url (POST_recipes body_servings_0) st
     = (RequestValidationError, st).
Proof.
  intros st.
  assert (H : create_input_invalid example_url body_servings_0).
  { unfold create_input_invalid; simpl.
    do 7 right; exists 0; split; [reflexivity | lia]. }
  split; [exact H|].
  exact (proj1 (invalid_create_is_rejected_and_store_unchanged example_clock
                  example_url body_servings_0 st H)).
Defined.

(** ** Delete on an empty store *)

Lemma seed_state_empty (clock : nat -> datetime) (st : State) :
  _db st = [] ->
  seed_state clock st
  = mkState
      [(_id_counter st + 1,
        sample_recipe (_id_counter st + 1) (clock (ticks st))
          (clock (S (ticks st))))]
      (_id_counter st + 1) (S (S (ticks st))).
Proof. unfold seed_state; intros ->; reflexivity. Qed.

(** C10. On an empty store, a delete with an id of at least 1 first seeds:
    the sample is stored under the counter plus one.  The delete succeeds,
    returning the id and leaving the store empty, exactly when the requested
    id is that fresh id; with any other id it raises the 404 and the fresh
    seed record stays stored. *)
Theorem delete_on_empty_store_seeds_first
    (clock : nat -> datetime) (HttpUrl_parse : string -> option HttpUrl)
    (st : State) (rid : Z) :
  _db st = [] ->
  1 <= rid ->
  let c := _id_counter st + 1 in
  let seed := sample_recipe c (clock (ticks st)) (clock (S (ticks st))) in
  let out := route clock HttpUrl_parse (DELETE_recipe rid) st in
  _ensure_seed clock st
  = (Return tt, mkState [(c, seed)] c (S (S (ticks st))))
  /\ (rid = c ->
      out = (Return (Deleted rid), mkState [] c (S (S (ticks st)))))
  /\ (rid <> c ->
      out = (HTTPException 404 "Recipe not found",
             mkState [(c, seed)] c (S (S (ticks st)))))
  /\ ((exists st', out = (Return (Deleted rid), st')) <-> rid = c).
Proof.
  intros E L c seed out.
  assert (P : path_ok rid = true) by (apply Z.leb_le; exact L).
  assert (O : out
              = if rid =? c
                then (Return (Deleted rid), mkState [] c (S (S (ticks st))))
                else (HTTPException 404 "Recipe not found",
                      mkState [(c, seed)] c (S (S (ticks st))))).
  { unfold out; simpl; rewrite P; unfold bind.
    rewrite delete_recipe_eq, (seed_state_empty clock st E); simpl.
    unfold dict_contains; simpl; fold c.
    destruct (rid =? c); reflexivity. }
  split; [rewrite _ensure_seed_eq, (seed_state_empty clock st E); reflexivity|].
  split; [intros ->; rewrite O, Z.eqb_refl; reflexivity|].
  split.
  - intros N; rewrite O; destruct (Z.eqb_spec rid c); [contradiction|].
    reflexivity.
  - rewrite O; destruct (Z.eqb_spec rid c) as [->|N].
    + split; [reflexivity | intros _; eexists; reflexivity].
    + split; [intros (st' & H); discriminate | contradiction].
Qed.

(** The first request of a process is DELETE /recipes/1, or /recipes/5. *)
Lemma delete_on_empty_store_seeds_first_witness :
  (_db initial_state = [] /\ 1 <= 1
   /\ route example_clock example_url (DELETE_recipe 1) initial_state
      = (Return (Deleted 1), mkState [] 1 2))
  /\ (_db initial_state = [] /\ 1 <= 5
      /\ route example_clock example_url (DELETE_recipe 5) initial_state
         = (HTTPException 404 "Recipe not found",
            mkState [(1, sample_recipe 1 1000 1001)] 1 2)).
Proof.
  split.
  - split; [reflexivity|]; split; [lia|].
    refine (proj1 (proj2 (delete_on_empty_store_seeds_first example_clock
                            example_url initial_state 1 eq_refl _)) eq_refl).
    lia.
  - split; [reflexivity|]; split; [lia|].
    refine (proj1 (proj2 (proj2 (delete_on_empty_store_seeds_first
                                   example_clock example_url initial_state 5
                                   eq_refl _))) _); [lia | discriminate].
Defined.

(** ** Replace *)

Lemma update_route (clock : nat -> datetime)
    (HttpUrl_parse : string -> option HttpUrl) (st : State) (rid : Z)
    (body : Body) (p : RecipeCreate) :
  1 <= rid ->
  RecipeCreate_validate HttpUrl_parse body = Some p ->
  route clock HttpUrl_parse (PUT_recipe rid body) st
  = let s := seed_state clock st in
    match dict_get rid (_db s) with
    | None => (HTTPException 404 "Recipe not found", s)
    | Some existing =>
        let r := recipe_of_payload rid (r_created_at existing)
                   (clock (ticks s)) p in
        (Return (OneRecipe r),
         mkState (dict_set rid r (_db s)) (_id_counter s) (S (ticks s)))
    end.
Proof.
  intros L V; simpl.
  assert (P : path_ok rid = true) by (apply Z.leb_le; exact L).
  rewrite P, V; unfold bind.
  rewrite update_recipe_eq by (eapply RecipeCreate_validate_valid; exact V).
  simpl; destruct (dict_get rid _); reflexivity.
Qed.

(** C5. With a body that passes the [RecipeCreate] schema: on a stored id,
    the replace returns and stores, in place, a record that holds the eight
    payload values, the id and the [created_at] of the stored record, and the
    clock reading of the call as [updated_at]; the other records do not
    change.  On an id of at least 1 that the store, once seeded, does not
    hold, it raises the 404 "Recipe not found"; in particular on a store
    that is not empty and does not hold the id, where nothing changes. *)
Theorem replace_overwrites_fields_keeps_id_and_created_at
    (clock : nat -> datetime) (HttpUrl_parse : string -> option HttpUrl)
    (reqs : list Request) (rid : Z) (body : Body) (p : RecipeCreate) :
  let st := run clock HttpUrl_parse reqs initial_state in
  RecipeCreate_validate HttpUrl_parse body = Some p ->
  (forall old : Recipe,
      dict_get rid (_db st) = Some old ->
      let updated :=
        mkRecipe (p_title p) (p_description p) (p_ingredients p) (p_steps p)
          (p_image_url p) (p_prep_time_minutes p) (p_cook_time_minutes p)
          (p_servings p) (r_id old) (r_created_at old) (clock (ticks st)) in
      route clock HttpUrl_parse (PUT_recipe rid body) st
      = (Return (OneRecipe updated),
         mkState (dict_set rid updated (_db st)) (_id_counter st)
           (S (ticks st)))
      /\ r_id old = rid
      /\ dict_get rid (dict_set rid updated (_db st)) = Some updated
      /\ dict_keys (dict_set rid updated (_db st)) = dict_keys (_db st)
      /\ (forall k : Z, k <> rid ->
            dict_get k (dict_set rid updated (_db st)) = dict_get k (_db st)))
  /\ (1 <= rid ->
      dict_get rid (_db (seed_state clock st)) = None ->
      route clock HttpUrl_parse (PUT_recipe rid body) st
      = (HTTPException 404 "Recipe not found", seed_state clock st))
  /\ (1 <= rid ->
      _db st <> [] ->
      dict_get rid (_db st) = None ->
      route clock HttpUrl_parse (PUT_recipe rid body) st
      = (HTTPException 404 "Recipe not found", st)).
Proof.
  intros st V.
  pose proof (run_store_ok clock HttpUrl_parse reqs initial_state
                initial_store_ok) as S; fold st in S.
  split; [|split].
  - intros old G updated.
    destruct (store_ok_entry st rid old S G) as (I & B & _).
    split.
    { rewrite (update_route clock HttpUrl_parse st rid body p (proj1 B) V).
      simpl.
      rewrite (seed_state_nonempty clock st (dict_get_nonempty rid _ old G)), G.
      unfold updated, recipe_of_payload; rewrite I; reflexivity. }
    split; [exact I|].
    split; [apply dict_get_set_same|].
    split; [rewrite dict_keys_set, G; reflexivity|].
    intros k Hk; apply dict_get_set_other; exact Hk.
  - intros L G.
    rewrite (update_route clock HttpUrl_parse st rid body p L V); simpl.
    rewrite G; reflexivity.
  - intros L N G.
    rewrite (update_route clock HttpUrl_parse st rid body p L V); simpl.
    rewrite (seed_state_nonempty clock st N), G; reflexivity.
Qed.

(** The seed record replaced by [{"title": "X", "servings": 4}]. *)
Lemma replace_overwrites_fields_keeps_id_and_created_at_witness :
  let st := run example_clock example_url [GET_recipes] initial_state in
  let p := mkRecipeCreate "X" None [] [] None None None (Some 4) in
  RecipeCreate_validate example_url body_title_X_servings_4 = Some p
  /\ dict_get 1 (_db st) = Some (sample_recipe 1 1000 1001)
  /\ route example_clock example_url (PUT_recipe 1 body_title_X_servings_4) st
     = (Return (OneRecipe (recipe_of_payload 1 1000 1002 p)),
        mkState [(1, recipe_of_payload 1 1000 1002 p)] 1 3)
  /\ route example_clock example_url (PUT_recipe 7 body_title_X_servings_4) st
     = (HTTPException 404 "Recipe not found", st).
Proof.
  intros st p.
  pose proof (replace_overwrites_fields_keeps_id_and_created_at example_clock
                example_url [GET_recipes] 1 body_title_X_servings_4 p eq_refl)
    as H1.
  pose proof (replace_overwrites_fields_keeps_id_and_created_at example_clock
                example_url [GET_recipes] 7 body_title_X_servings_4 p eq_refl)
    as H7.
  split; [reflexivity|].
  split; [reflexivity|].
  split.
  - exact (proj1 (proj1 H1 (sample_recipe 1 1000 1001) eq_refl)).
  - refine (proj2 (proj2 H7) _ _ eq_refl); [lia | discriminate].
Defined.

(** ** Timestamps *)

Lemma times_ok_entry (clock : nat -> datetime) (st : State) (k : Z)
    (r : Recipe) :
  times_ok clock st -> dict_get k (_db st) = Some r ->
  r_created_at r <= r_updated_at r
  /\ exists n, (n < ticks st)%nat /\ r_updated_at r = clock n.
Proof.
  intros T G; apply dict_get_In in G.
  unfold times_ok in T; rewrite Forall_forall in T; exact (T _ G).
Qed.

Lemma dict_get_Some_key (k : Z) (d : Dict) (r : Recipe) :
  dict_get k d = Some r -> In k (dict_keys d).
Proof.
  intros G; apply dict_get_In in G.
  change k with (fst (k, r)); apply in_map; exact G.
Qed.

Section Timestamps.

Variable clock : nat -> datetime.
Variable HttpUrl_parse : string -> option HttpUrl.
Hypothesis clock_monotone : monotone clock.

Lemma times_ok_weaken (d : Dict) (t t' : nat) :
  (t <= t')%nat ->
  Forall (entry_times clock t) d -> Forall (entry_times clock t') d.
Proof.
  intros L; apply Forall_impl; intros e; apply entry_times_mono; exact L.
Qed.

(** Every request keeps the timestamps ordered. *)
Lemma step_times_ok (st : State) (req : Request) :
  times_ok clock st -> times_ok clock (step clock HttpUrl_parse st req).
Proof.
  intros T0; pose proof (seed_state_times clock st clock_monotone T0) as T.
  unfold step; destruct req as [| |k|b|k b|k b|k]; simpl; unfold bind.
  - exact T0.
  - rewrite list_recipes_eq; exact T.
  - destruct (path_ok k); [|exact T0].
    rewrite get_recipe_eq; destruct (dict_get k _); exact T.
  - destruct (RecipeCreate_validate _ b) as [p|] eqn:V; [|exact T0].
    apply RecipeCreate_validate_valid in V.
    rewrite create_recipe_eq by exact V; simpl.
    unfold times_ok; simpl; apply Forall_dict_set.
    + unfold entry_times; simpl; split; [lia|].
      eexists; split; [|reflexivity]; lia.
    + eapply times_ok_weaken; [|exact T]; lia.
  - destruct (path_ok k); [|exact T0].
    destruct (RecipeCreate_validate _ b) as [p|] eqn:V; [|exact T0].
    apply RecipeCreate_validate_valid in V.
    rewrite update_recipe_eq by exact V; simpl.
    destruct (dict_get k _) as [ex|] eqn:G; [|exact T]; simpl.
    destruct (times_ok_entry clock _ k ex T G) as (A & n & B & C).
    unfold times_ok; simpl; apply Forall_dict_set.
    + unfold entry_times; simpl; split.
      * pose proof (clock_monotone n (ticks (seed_state clock st))); lia.
      * eexists; split; [|reflexivity]; lia.
    + eapply times_ok_weaken; [|exact T]; lia.
  - destruct (path_ok k); [|exact T0].
    destruct (RecipeUpdate_validate _ b) as [p|] eqn:V; [|exact T0].
    rewrite patch_recipe_eq; simpl.
    destruct (dict_get k _) as [ex|] eqn:G; [|exact T]; simpl.
    destruct (times_ok_entry clock _ k ex T G) as (A & n & B & C).
    destruct (Recipe_new _) as [r|] eqn:N; simpl.
    + apply Recipe_new_managed in N; simpl in N; destruct N as (_ & Nc & Nu).
      unfold times_ok; simpl; apply Forall_dict_set.
      * unfold entry_times; simpl; rewrite Nc, Nu; split.
        -- pose proof (clock_monotone n (ticks (seed_state clock st))); lia.
        -- eexists; split; [|reflexivity]; lia.
      * eapply times_ok_weaken; [|exact T]; lia.
    + unfold times_ok; simpl; eapply times_ok_weaken; [|exact T]; lia.
  - destruct (path_ok k); [|exact T0].
    rewrite delete_recipe_eq; simpl.
    destruct (dict_contains k _); [|exact T]; simpl.
    unfold times_ok; simpl; apply Forall_dict_del; exact T.
Qed.

Lemma run_times_ok (reqs : list Request) (st : State) :
  times_ok clock st -> times_ok clock (run clock HttpUrl_parse reqs st).
Proof.
  revert st; induction reqs as [|req reqs IH]; simpl; intros st T;
    [exact T | apply IH, step_times_ok, T].
Qed.

End Timestamps.

Section CreatedAt.

Variable clock : nat -> datetime.
Variable HttpUrl_parse : string -> option HttpUrl.

(** A request does not change the [created_at] of a record it keeps. *)
Lemma step_created_at (st : State) (req : Request) (k : Z) (r r' : Recipe) :
  store_ok st ->
  dict_get k (_db st) = Some r ->
  dict_get k (_db (step clock HttpUrl_parse st req)) = Some r' ->
  r_created_at r' = r_created_at r.
Proof.
  intros S G.
  pose proof (seed_state_nonempty clock st (dict_get_nonempty k _ r G)) as E.
  destruct (store_ok_entry st k r S G) as (_ & B & _).
  assert (Same : dict_get k (_db st) = Some r' ->
                 r_created_at r' = r_created_at r) by congruence.
  unfold step; destruct req as [| |i|b|i b|i b|i]; simpl; unfold bind.
  - exact Same.
  - rewrite list_recipes_eq, E; exact Same.
  - destruct (path_ok i); [|exact Same].
    rewrite get_recipe_eq, E; destruct (dict_get i _); exact Same.
  - destruct (RecipeCreate_validate _ b) as [p|] eqn:V; [|exact Same].
    apply RecipeCreate_validate_valid in V.
    rewrite create_recipe_eq by exact V; rewrite E; simpl.
    rewrite dict_get_set_other by lia; exact Same.
  - destruct (path_ok i); [|exact Same].
    destruct (RecipeCreate_validate _ b) as [p|] eqn:V; [|exact Same].
    apply RecipeCreate_validate_valid in V.
    rewrite update_recipe_eq by exact V; rewrite E; simpl.
    destruct (dict_get i (_db st)) as [ex|] eqn:Gi; [|exact Same]; simpl.
    destruct (Z.eq_dec k i) as [->|Nk].
    + rewrite dict_get_set_same; intros H; inversion H; simpl; congruence.
    + rewrite dict_get_set_other by exact Nk; exact Same.
  - destruct (path_ok i); [|exact Same].
    destruct (RecipeUpdate_validate _ b) as [p|] eqn:V; [|exact Same].
    rewrite patch_recipe_eq; rewrite E; simpl.
    destruct (dict_get i (_db st)) as [ex|] eqn:Gi; [|exact Same].
    destruct (Recipe_new _) as [u|] eqn:N; simpl; [|exact Same].
    destruct (Z.eq_dec k i) as [->|Nk].
    + rewrite dict_get_set_same; intros H; inversion H; subst.
      apply Recipe_new_managed in N; simpl in N; destruct N as (_ & Nc & _).
      congruence.
    + rewrite dict_get_set_other by exact Nk; exact Same.
  - destruct (path_ok i); [|exact Same].
    rewrite delete_recipe_eq; rewrite E; simpl.
    destruct (dict_contains i _); [|exact Same]; simpl.
    destruct (Z.eq_dec k i) as [->|Nk].
    + rewrite dict_del_gone by (destruct S; assumption); discriminate.
    + rewrite dict_get_del_other by exact Nk; exact Same.
Qed.

(** Nor does any sequence of requests. *)
Lemma run_created_at (reqs : list Request) (st : State) (k : Z)
    (r r' : Recipe) :
  store_ok st ->
  dict_get k (_db st) = Some r ->
  dict_get k (_db (run clock HttpUrl_parse reqs st)) = Some r' ->
  r_created_at r' = r_created_at r.
Proof.
  revert st r; induction reqs as [|req reqs IH]; simpl; intros st r S G G'.
  - congruence.
  - pose proof (step_store_ok clock HttpUrl_parse st req S) as S'.
    destruct (dict_get k (_db (step clock HttpUrl_parse st req)))
      as [r1|] eqn:G1.
    + rewrite (IH _ r1 S' G1 G').
      exact (step_created_at st req k r r1 S G G1).
    + exfalso.
      apply dict_get_Some_key in G'; revert G'.
      apply run_retired; [exact S' | | apply dict_get_None; exact G1].
      destruct (store_ok_entry st k r S G) as (_ & B & _).
      pose proof (step_counter clock HttpUrl_parse st req); lia.
Qed.

(** A created record carries one clock reading in both timestamps and is
    stored under its id. *)
Lemma create_route_returns (st st' : State) (body : Body) (r : Recipe) :
  route clock HttpUrl_parse (POST_recipes body) st
  = (Return (OneRecipe r), st') ->
  r_created_at r = r_updated_at r
  /\ dict_get (r_id r) (_db st') = Some r
  /\ r_id r = _id_counter (seed_state clock st) + 1
  /\ _db st' = dict_set (r_id r) r (_db (seed_state clock st)).
Proof.
  simpl.
  destruct (RecipeCreate_validate _ body) as [p|] eqn:V; [|discriminate].
  apply RecipeCreate_validate_valid in V.
  unfold bind; rewrite create_recipe_eq by exact V; simpl.
  intros H; inversion H; subst; simpl.
  split; [reflexivity|].
  split; [apply dict_get_set_same | split; reflexivity].
Qed.

End CreatedAt.

Lemma initial_times_ok (clock : nat -> datetime) : times_ok clock initial_state.
Proof. constructor. Qed.

Lemma example_clock_monotone : monotone example_clock.
Proof. unfold monotone, example_clock; intros i j L; lia. Qed.

(** C8. Under a monotone clock, after any sequence of requests every stored
    recipe has [created_at] no later than [updated_at]; a record that is
    still stored after further requests has the [created_at] it had; and the
    record a create returns has [created_at] equal to [updated_at] and is the
    one stored under its id. *)
Theorem created_at_le_updated_at_and_never_changes
    (clock : nat -> datetime) (HttpUrl_parse : string -> option HttpUrl)
    (reqs : list Request) :
  monotone clock ->
  let st := run clock HttpUrl_parse reqs initial_state in
  (forall (k : Z) (r : Recipe),
      dict_get k (_db st) = Some r -> r_created_at r <= r_updated_at r)
  /\ (forall (more : list Request) (k : Z) (r r' : Recipe),
        dict_get k (_db st) = Some r ->
        dict_get k (_db (run clock HttpUrl_parse more st)) = Some r' ->
        r_created_at r' = r_created_at r)
  /\ (forall (body : Body) (r : Recipe) (st' : State),
        route clock HttpUrl_parse (POST_recipes body) st
        = (Return (OneRecipe r), st') ->
        r_created_at r = r_updated_at r
        /\ dict_get (r_id r) (_db st') = Some r).
Proof.
  intros Mono st.
  pose proof (run_store_ok clock HttpUrl_parse reqs initial_state
                initial_store_ok) as S; fold st in S.
  pose proof (run_times_ok clock HttpUrl_parse Mono reqs initial_state
                (initial_times_ok clock)) as T; fold st in T.
  split; [|split].
  - intros k r G; exact (proj1 (times_ok_entry clock st k r T G)).
  - intros more k r r' G G'.
    exact (run_created_at clock HttpUrl_parse more st k r r' S G G').
  - intros body r st' H.
    destruct (create_route_returns clock HttpUrl_parse st st' body r H)
      as (A & B & _); auto.
Qed.

(** A create, then a patch and a replace of the created record. *)
Lemma created_at_le_updated_at_and_never_changes_witness :
  let reqs := [POST_recipes body_title_X_servings_4;
               PATCH_recipe 2 body_servings_2;
               PUT_recipe 2 body_title_X_servings_4] in
  let st := run example_clock example_url reqs initial_state in
  monotone example_clock
  /\ dict_get 2 (_db st)
     = Some (mkRecipe "X" None [] [] None None None (Some 4) 2 1002 1004)
  /\ (forall (k : Z) (r : Recipe),
        dict_get k (_db st) = Some r -> r_created_at r <= r_updated_at r).
Proof.
  intros reqs st.
  split; [exact example_clock_monotone|].
  split; [reflexivity|].
  exact (proj1 (created_at_le_updated_at_and_never_changes example_clock
                  example_url reqs example_clock_monotone)).
Defined.

(** ** Seeding *)

Section Seeding.

Variable clock : nat -> datetime.
Variable HttpUrl_parse : string -> option HttpUrl.

Lemma seed_state_idem (st : State) :
  seed_state clock (seed_state clock st) = seed_state clock st.
Proof. apply seed_state_nonempty, seed_state_seeded. Qed.

Lemma _ensure_seed_twice (st : State) :
  _ensure_seed clock (seed_state clock st)
  = (Return tt, seed_state clock st).
Proof. rewrite _ensure_seed_eq, seed_state_idem; reflexivity. Qed.

(** Each of the six handlers behaves on a state as on the state its first
    statement, [_ensure_seed()], leaves. *)
Lemma handlers_seed_first (st : State) :
  list_recipes clock st = list_recipes clock (seed_state clock st)
  /\ (forall k, get_recipe clock k st
                = get_recipe clock k (seed_state clock st))
  /\ (forall p, create_recipe clock p st
                = create_recipe clock p (seed_state clock st))
  /\ (forall k p, update_recipe clock k p st
                  = update_recipe clock k p (seed_state clock st))
  /\ (forall k p, patch_recipe clock k p st
                  = patch_recipe clock k p (seed_state clock st))
  /\ (forall k, delete_recipe clock k st
                = delete_recipe clock k (seed_state clock st)).
Proof.
  unfold list_recipes, get_recipe, create_recipe, update_recipe,
    patch_recipe, delete_recipe.
  repeat split; intros; unfold bind;
    rewrite _ensure_seed_twice, _ensure_seed_eq; reflexivity.
Qed.

(** On a store that holds a record, only an accepted create moves the
    counter. *)
Lemma step_counter_nonempty (st : State) (req : Request) :
  _db st <> [] ->
  (forall b, req <> POST_recipes b) ->
  _id_counter (step clock HttpUrl_parse st req) = _id_counter st.
Proof.
  intros N NP; pose proof (seed_state_nonempty clock st N) as E.
  unfold step; destruct req as [| |k|b|k b|k b|k]; simpl; unfold bind.
  - reflexivity.
  - rewrite list_recipes_eq, E; reflexivity.
  - destruct (path_ok k); [|reflexivity].
    rewrite get_recipe_eq, E; destruct (dict_get k _); reflexivity.
  - exfalso; exact (NP b eq_refl).
  - destruct (path_ok k); [|reflexivity].
    destruct (RecipeCreate_validate _ b) as [p|] eqn:V; [|reflexivity].
    apply RecipeCreate_validate_valid in V.
    rewrite update_recipe_eq by exact V; rewrite E; simpl.
    destruct (dict_get k _); reflexivity.
  - destruct (path_ok k); [|reflexivity].
    destruct (RecipeUpdate_validate _ b) as [p|]; [|reflexivity].
    rewrite patch_recipe_eq; rewrite E; simpl.
    destruct (dict_get k _); [|reflexivity].
    destruct (Recipe_new _); reflexivity.
  - destruct (path_ok k); [|reflexivity].
    rewrite delete_recipe_eq; rewrite E; simpl.
    destruct (dict_contains k _); reflexivity.
Qed.

(** Deleting the only record and listing again. *)
Lemma delete_only_record_then_list (st : State) (k : Z) (r : Recipe) :
  store_ok st ->
  _db st = [(k, r)] ->
  let st1 := mkState [] (_id_counter st) (ticks st) in
  let c := _id_counter st + 1 in
  let seed := sample_recipe c (clock (ticks st)) (clock (S (ticks st))) in
  route clock HttpUrl_parse (DELETE_recipe k) st = (Return (Deleted k), st1)
  /\ route clock HttpUrl_parse GET_recipes st1
     = (Return (Recipes [seed]), mkState [(c, seed)] c (S (S (ticks st))))
  /\ k < c.
Proof.
  intros S E st1 c seed.
  assert (G : dict_get k (_db st) = Some r)
    by (rewrite E; simpl; rewrite Z.eqb_refl; reflexivity).
  destruct (store_ok_entry st k r S G) as (_ & B & _).
  split; [|split; [|unfold c; lia]].
  - simpl; rewrite (store_ok_path_ok st k r S G); unfold bind.
    rewrite delete_recipe_eq.
    rewrite (seed_state_nonempty clock st (dict_get_nonempty k _ r G)).
    simpl; unfold dict_contains; rewrite G, E; simpl.
    rewrite Z.eqb_refl; reflexivity.
  - simpl; unfold bind; rewrite list_recipes_eq.
    rewrite (seed_state_empty clock st1 eq_refl); reflexivity.
Qed.

End Seeding.

(** C6. [_ensure_seed] seeds exactly when the store is empty: it then stores
    the "Classic Pancakes" sample under the counter plus one, an id no
    earlier state of the process held; on a store that holds a record it
    does nothing.  Each of the six handlers starts with it, so behaves on a
    state as on the seeded one: after the only record is deleted, the next
    listing returns the sample under a new id.  While the store holds a
    record no request seeds: only an accepted create moves the counter, and
    it adds only the created record. *)
Theorem seeding_happens_exactly_on_an_empty_store
    (clock : nat -> datetime) (HttpUrl_parse : string -> option HttpUrl) :
  (forall st : State,
      _db st = [] ->
      let c := _id_counter st + 1 in
      let seed := sample_recipe c (clock (ticks st)) (clock (S (ticks st))) in
      _ensure_seed clock st
      = (Return tt, mkState [(c, seed)] c (S (S (ticks st))))
      /\ r_title seed = "Classic Pancakes" /\ r_id seed = c)
  /\ (forall st : State,
        _db st <> [] -> _ensure_seed clock st = (Return tt, st))
  /\ (forall st : State,
        list_recipes clock st = list_recipes clock (seed_state clock st)
        /\ (forall k, get_recipe clock k st
                      = get_recipe clock k (seed_state clock st))
        /\ (forall p, create_recipe clock p st
                      = create_recipe clock p (seed_state clock st))
        /\ (forall k p, update_recipe clock k p st
                        = update_recipe clock k p (seed_state clock st))
        /\ (forall k p, patch_recipe clock k p st
                        = patch_recipe clock k p (seed_state clock st))
        /\ (forall k, delete_recipe clock k st
                      = delete_recipe clock k (seed_state clock st)))
  /\ (forall (reqs : list Request) (k : Z) (r : Recipe),
        let st := run clock HttpUrl_parse reqs initial_state in
        _db st = [(k, r)] ->
        let st1 := mkState [] (_id_counter st) (ticks st) in
        let c := _id_counter st + 1 in
        let seed :=
          sample_recipe c (clock (ticks st)) (clock (S (ticks st))) in
        route clock HttpUrl_parse (DELETE_recipe k) st
        = (Return (Deleted k), st1)
        /\ route clock HttpUrl_parse GET_recipes st1
           = (Return (Recipes [seed]),
              mkState [(c, seed)] c (S (S (ticks st))))
        /\ k < c)
  /\ (forall reqs1 reqs2 : list Request,
        let st := run clock HttpUrl_parse (reqs1 ++ reqs2) initial_state in
        _db st = [] ->
        ~ In (_id_counter st + 1)
            (dict_keys (_db (run clock HttpUrl_parse reqs1 initial_state))))
  /\ (forall (st : State) (req : Request),
        _db st <> [] ->
        (forall b, req <> POST_recipes b) ->
        _id_counter (step clock HttpUrl_parse st req) = _id_counter st)
  /\ (forall (st st' : State) (body : Body) (r : Recipe),
        _db st <> [] ->
        route clock HttpUrl_parse (POST_recipes body) st
        = (Return (OneRecipe r), st') ->
        r_id r = _id_counter st + 1
        /\ _db st' = dict_set (r_id r) r (_db st)).
Proof.
  split.
  { intros st E c seed.
    rewrite _ensure_seed_eq, (seed_state_empty clock st E).
    repeat split. }
  split.
  { intros st N; rewrite _ensure_seed_eq, (seed_state_nonempty clock st N).
    reflexivity. }
  split; [exact (handlers_seed_first clock)|].
  split.
  { intros reqs k r st E.
    apply (delete_only_record_then_list clock HttpUrl_parse st k r);
      [|exact E].
    apply run_store_ok, initial_store_ok. }
  split.
  { intros reqs1 reqs2 st E I.
    pose proof (run_store_ok clock HttpUrl_parse reqs1 initial_state
                  initial_store_ok) as S1.
    pose proof (store_ok_key_le _ _ S1 I) as B.
    unfold st in B; rewrite run_app in B.
    pose proof (run_counter clock HttpUrl_parse reqs2
                  (run clock HttpUrl_parse reqs1 initial_state)).
    lia. }
  split; [exact (step_counter_nonempty clock HttpUrl_parse)|].
  intros st st' body r N H.
  destruct (create_route_returns clock HttpUrl_parse st st' body r H)
    as (_ & _ & A & B).
  rewrite (seed_state_nonempty clock st N) in A, B; auto.
Qed.

(** ** The order of the listing *)

Lemma dict_values_set_in_place (k : Z) (v old : Recipe) (d : Dict) :
  NoDup (dict_keys d) ->
  (forall e, In e d -> r_id (snd e) = fst e) ->
  dict_get k d = Some old ->
  dict_values (dict_set k v d)
  = map (fun r => if r_id r =? k then v else r) (dict_values d).
Proof.
  intros ND Id G; rewrite (dict_set_replace k v old d ND G).
  unfold dict_values; rewrite !map_map; apply map_ext_in.
  intros [k' v'] I; pose proof (Id _ I) as E; simpl in *; rewrite E.
  rewrite (Z.eqb_sym k' k); destruct (k =? k'); reflexivity.
Qed.

Lemma dict_del_filter (k : Z) (d : Dict) :
  NoDup (dict_keys d) ->
  dict_del k d = filter (fun e => negb (k =? fst e)) d.
Proof.
  induction d as [|[k' v'] t IH]; simpl; [reflexivity|].
  intros ND; inversion ND as [|? ? Hn ND']; subst.
  destruct (Z.eqb_spec k k') as [->|N]; simpl.
  - symmetry; apply forallb_filter_id, forallb_forall.
    intros [k2 v2] I; simpl.
    destruct (Z.eqb_spec k' k2) as [->|]; [|reflexivity].
    exfalso; apply Hn; change k2 with (fst (k2, v2)); apply in_map; exact I.
  - rewrite IH by exact ND'; reflexivity.
Qed.

Lemma dict_values_del (k : Z) (d : Dict) :
  NoDup (dict_keys d) ->
  (forall e, In e d -> r_id (snd e) = fst e) ->
  dict_values (dict_del k d)
  = filter (fun r => negb (r_id r =? k)) (dict_values d).
Proof.
  intros ND Id; rewrite (dict_del_filter k d ND); clear ND.
  unfold dict_values; induction d as [|[k' v'] t IH]; simpl; [reflexivity|].
  pose proof (Id (k', v') (or_introl eq_refl)) as E; simpl in E; rewrite E.
  rewrite (Z.eqb_sym k' k).
  destruct (k =? k'); simpl; rewrite IH; auto; intros e I; apply Id; right;
    exact I.
Qed.

Lemma store_ok_ids (st : State) (e : Z * Recipe) :
  store_ok st -> In e (_db st) -> r_id (snd e) = fst e.
Proof.
  intros (_ & F & _) I; rewrite Forall_forall in F.
  destruct (F e I) as (E & _); exact E.
Qed.

Lemma store_ok_ids_keys (st : State) :
  store_ok st -> map r_id (dict_values (_db st)) = dict_keys (_db st).
Proof.
  intros S; unfold dict_values, dict_keys; rewrite map_map.
  apply map_ext_in; intros e I; exact (store_ok_ids st e S I).
Qed.

Section ListingOrder.

Variable clock : nat -> datetime.
Variable HttpUrl_parse : string -> option HttpUrl.

(** A replace or a patch of a stored id either stores a record at that id
    or leaves the store as it is. *)
Lemma put_patch_in_place (st : State) (rid : Z) (body : Body)
    (old : Recipe) (req : Request) :
  store_ok st ->
  dict_get rid (_db st) = Some old ->
  req = PUT_recipe rid body \/ req = PATCH_recipe rid body ->
  match fst (route clock HttpUrl_parse req st) with
  | Return (OneRecipe updated) =>
      _db (step clock HttpUrl_parse st req) = dict_set rid updated (_db st)
  | Return _ => False
  | _ => _db (step clock HttpUrl_parse st req) = _db st
  end.
Proof.
  intros S G [->| ->]; unfold step.
  - destruct (store_ok_entry st rid old S G) as (_ & B & _).
    destruct (RecipeCreate_validate HttpUrl_parse body) as [p|] eqn:V.
    + rewrite (update_route clock HttpUrl_parse st rid body p (proj1 B) V).
      simpl.
      rewrite (seed_state_nonempty clock st (dict_get_nonempty rid _ old G)).
      rewrite G; reflexivity.
    + simpl; rewrite V; destruct (path_ok rid); reflexivity.
  - destruct (RecipeUpdate_validate HttpUrl_parse body) as [p|] eqn:V.
    + rewrite (patch_route_existing clock HttpUrl_parse st rid body p old
                 S G V).
      destruct (Recipe_new _); reflexivity.
    + simpl; rewrite V; destruct (path_ok rid); reflexivity.
Qed.

Lemma create_appends (st st' : State) (body : Body) (r : Recipe) :
  store_ok st ->
  route clock HttpUrl_parse (POST_recipes body) st
  = (Return (OneRecipe r), st') ->
  dict_values (_db st')
  = (dict_values (_db (seed_state clock st)) ++ [r])%list.
Proof.
  intros S H.
  destruct (create_route_returns clock HttpUrl_parse st st' body r H)
    as (_ & _ & A & B).
  rewrite B, dict_set_absent.
  - unfold dict_values; rewrite map_app; reflexivity.
  - apply store_ok_fresh; [apply seed_state_ok; exact S | lia].
Qed.

Lemma delete_filters (st st' : State) (rid i : Z) :
  store_ok st ->
  route clock HttpUrl_parse (DELETE_recipe rid) st
  = (Return (Deleted i), st') ->
  i = rid
  /\ dict_values (_db st')
     = filter (fun r => negb (r_id r =? rid))
         (dict_values (_db (seed_state clock st))).
Proof.
  intros S; pose proof (seed_state_ok clock st S) as S'.
  simpl; destruct (path_ok rid); [|discriminate].
  unfold bind; rewrite delete_recipe_eq; simpl.
  destruct (dict_contains rid _); [|discriminate]; simpl.
  intros H; inversion H; subst; simpl; split; [reflexivity|].
  apply dict_values_del; [destruct S'; assumption|].
  intros e I; exact (store_ok_ids _ e S' I).
Qed.

End ListingOrder.

(** C9. In every state, the listing returns the values of the store, all of
    them, in the order of the underlying map, after the seeding step (which
    does nothing when a record is stored).  That order is insertion order:
    after any sequence of requests, a create puts the new record last, a
    delete removes one record and keeps the order of the others, and a
    replace or a patch of a stored id keeps every id at its position; when
    it succeeds the listing differs from the previous one only by the
    updated record standing where the old one stood. *)
Theorem list_returns_all_in_insertion_order
    (clock : nat -> datetime) (HttpUrl_parse : string -> option HttpUrl)
    (reqs : list Request) :
  let st := run clock HttpUrl_parse reqs initial_state in
  (forall s : State,
      route clock HttpUrl_parse GET_recipes s
      = (Return (Recipes (dict_values (_db (seed_state clock s)))),
         seed_state clock s))
  /\ (forall s : State,
        _db s <> [] ->
        route clock HttpUrl_parse GET_recipes s
        = (Return (Recipes (dict_values (_db s))), s))
  /\ (forall (body : Body) (r : Recipe) (st' : State),
        route clock HttpUrl_parse (POST_recipes body) st
        = (Return (OneRecipe r), st') ->
        dict_values (_db st')
        = (dict_values (_db (seed_state clock st)) ++ [r])%list)
  /\ (forall (rid i : Z) (st' : State),
        route clock HttpUrl_parse (DELETE_recipe rid) st
        = (Return (Deleted i), st') ->
        dict_values (_db st')
        = filter (fun r => negb (r_id r =? rid))
            (dict_values (_db (seed_state clock st))))
  /\ (forall (rid : Z) (body : Body) (old : Recipe) (req : Request),
        dict_get rid (_db st) = Some old ->
        req = PUT_recipe rid body \/ req = PATCH_recipe rid body ->
        let st' := step clock HttpUrl_parse st req in
        map r_id (dict_values (_db st')) = map r_id (dict_values (_db st))
        /\ (forall updated : Recipe,
              fst (route clock HttpUrl_parse req st)
              = Return (OneRecipe updated) ->
              dict_values (_db st')
              = map (fun r => if r_id r =? rid then updated else r)
                  (dict_values (_db st)))).
Proof.
  intros st.
  pose proof (run_store_ok clock HttpUrl_parse reqs initial_state
                initial_store_ok) as S; fold st in S.
  split; [intros s; simpl; unfold bind; rewrite list_recipes_eq; reflexivity|].
  split.
  { intros s N; simpl; unfold bind; rewrite list_recipes_eq.
    rewrite (seed_state_nonempty clock s N); reflexivity. }
  split; [intros body r st'; apply create_appends; exact S|].
  split.
  { intros rid i st' H.
    exact (proj2 (delete_filters clock HttpUrl_parse st st' rid i S H)). }
  intros rid body old req G R st'.
  pose proof (put_patch_in_place clock HttpUrl_parse st rid body old req S G R)
    as P.
  pose proof (step_store_ok clock HttpUrl_parse st req S) as S'.
  fold st' in P, S'.
  split.
  - rewrite (store_ok_ids_keys st' S'), (store_ok_ids_keys st S).
    destruct (fst (route clock HttpUrl_parse req st)) as [[| |u|]| | |];
      try contradiction; rewrite P; try reflexivity.
    rewrite dict_keys_set, G; reflexivity.
  - intros updated E; rewrite E in P; rewrite P.
    apply (dict_values_set_in_place rid updated old);
      [destruct S; assumption | | exact G].
    intros e I; exact (store_ok_ids st e S I).
Qed.

(** * Further properties of the handlers *)

(** ** Stored records satisfy the declared constraints *)

Lemma recipe_valid_constraints (r : Recipe) :
  recipe_valid r = true -> recipe_constraints r.
Proof.
  unfold recipe_valid, recipe_constraints, title_ok, description_ok, ge_ok.
  intros H.
  apply andb_prop in H; destruct H as [H Hs].
  apply andb_prop in H; destruct H as [H Hc].
  apply andb_prop in H; destruct H as [H Hp].
  apply andb_prop in H; destruct H as [H Hd].
  apply andb_prop in H; destruct H as [Ha Hb].
  apply Nat.leb_le in Ha, Hb.
  split; [lia|].
  split; [intros x E; rewrite E in Hd; apply Nat.leb_le; exact Hd|].
  split; [intros x E; rewrite E in Hp; apply Z.leb_le; exact Hp|].
  split; [intros x E; rewrite E in Hc; apply Z.leb_le; exact Hc|].
  intros x E; rewrite E in Hs; apply Z.leb_le; exact Hs.
Qed.

(** X2. After any sequence of requests, every stored record satisfies the
    declared field constraints (title of 1 to 200 characters, description of
    at most 2000, times not negative, servings at least 1), carries the id
    it is stored under, and that id is at least 1. *)
Theorem stored_records_satisfy_field_constraints
    (clock : nat -> datetime) (HttpUrl_parse : string -> option HttpUrl)
    (reqs : list Request) (k : Z) (r : Recipe) :
  dict_get k (_db (run clock HttpUrl_parse reqs initial_state)) = Some r ->
  recipe_constraints r /\ r_id r = k /\ 1 <= k.
Proof.
  intros G.
  pose proof (run_store_ok clock HttpUrl_parse reqs initial_state
                initial_store_ok) as S.
  destruct (store_ok_entry _ k r S G) as (A & B & C).
  split; [apply recipe_valid_constraints; exact C | split; [exact A | lia]].
Qed.

(** The record created from [{"title": "X", "servings": 4}] and then patched
    with [{"servings": 2}]. *)
Lemma stored_records_satisfy_field_constraints_witness :
  let reqs := [POST_recipes body_title_X_servings_4;
               PATCH_recipe 2 body_servings_2] in
  let r := mkRecipe "X" None [] [] None None None (Some 2) 2 1002 1003 in
  dict_get 2 (_db (run example_clock example_url reqs initial_state)) = Some r
  /\ recipe_constraints r.
Proof.
  intros reqs r; split; [reflexivity|].
  exact (proj1 (stored_records_satisfy_field_constraints example_clock
                  example_url reqs 2 r eq_refl)).
Defined.

(** ** Which requests the schemas refuse *)

Lemma optional_set_None {A : Type} (ok : A -> bool) (f : Presence A) :
  optional_set ok f = None <-> exists a, f = Provided (Some a) /\ ok a = false.
Proof.
  destruct f as [|[a|]]; simpl.
  - split; [discriminate | intros (a & E & _); discriminate].
  - destruct (ok a) eqn:E.
    + split; [discriminate | intros (x & Ex & F); inversion Ex; congruence].
    + split; [intros _; exists a; auto | reflexivity].
  - split; [discriminate | intros (a & E & _); discriminate].
Qed.

Lemma optional_set_any_Some {A : Type} (f : Presence A) :
  optional_set any f = Some f.
Proof. destruct f as [|[a|]]; reflexivity. Qed.

Lemma patch_input_invalid_iff (HttpUrl_parse : string -> option HttpUrl)
    (b : Body) :
  patch_input_invalid HttpUrl_parse b
  <-> RecipeUpdate_validate HttpUrl_parse b = None.
Proof.
  unfold patch_input_invalid, RecipeUpdate_validate.
  destruct b as [t d i s u p c v]; simpl.
  assert (Ht : optional_set title_ok t = None
               <-> exists x, t = Provided (Some x)
                             /\ (String.length x = 0%nat
                                 \/ (200 < String.length x)%nat)).
  { rewrite optional_set_None; unfold title_ok.
    split; intros (x & E & H); exists x; split; auto.
    - apply andb_false_iff in H; destruct H as [H|H]; apply Nat.leb_gt in H;
        [left | right]; lia.
    - apply andb_false_iff; destruct H as [H|H];
        [left | right]; apply Nat.leb_gt; lia. }
  assert (Hd : optional_set description_ok d = None
               <-> exists x, d = Provided (Some x)
                             /\ (2000 < String.length x)%nat).
  { rewrite optional_set_None; unfold description_ok.
    split; intros (x & E & H); exists x; split; auto; apply Nat.leb_gt;
      exact H. }
  assert (Hu : optional_set_url HttpUrl_parse u = None
               <-> exists x, u = Provided (Some x) /\ HttpUrl_parse x = None).
  { destruct u as [|[x|]]; simpl.
    - split; [discriminate | intros (x & E & _); discriminate].
    - destruct (HttpUrl_parse x) eqn:E.
      + split; [discriminate | intros (y & Ey & F); inversion Ey; congruence].
      + split; [intros _; exists x; auto | reflexivity].
    - split; [discriminate | intros (x & E & _); discriminate]. }
  assert (Hge : forall lo f,
             optional_set (ge_ok lo) f = None
             <-> exists n, f = Provided (Some n) /\ n < lo).
  { intros lo f; rewrite optional_set_None; unfold ge_ok.
    split; intros (n & E & H); exists n; split; auto; apply Z.leb_gt;
      exact H. }
  rewrite <- Ht, <- Hd, <- Hu, <- !Hge, !optional_set_any_Some.
  destruct (optional_set title_ok t), (optional_set description_ok d),
    (optional_set_url HttpUrl_parse u), (optional_set (ge_ok 0) p),
    (optional_set (ge_ok 0) c), (optional_set (ge_ok 1) v);
    split; intros H; try reflexivity; try discriminate; try tauto;
    repeat (destruct H as [H|H]; try discriminate).
Qed.

Lemma path_ok_false (i : Z) : path_ok i = false <-> i < 1.
Proof. unfold path_ok; apply Z.leb_gt. Qed.

Lemma path_ok_true (i : Z) : path_ok i = true <-> 1 <= i.
Proof. unfold path_ok; apply Z.leb_le. Qed.

(** X3. A request is answered with the request validation error exactly when
    it breaks the declared schema of its route: a path id below 1 (get,
    replace, patch, delete), or a body that breaks a field constraint
    (create, replace, patch; for a patch, fields left out or null break
    none).  The handler is then not run: the state is untouched, an empty
    store is not even seeded. *)
Theorem request_rejected_iff_schema_broken
    (clock : nat -> datetime) (HttpUrl_parse : string -> option HttpUrl)
    (st : State) (req : Request) :
  (fst (route clock HttpUrl_parse req st) = RequestValidationError
   <-> request_invalid HttpUrl_parse req)
  /\ (request_invalid HttpUrl_parse req ->
      route clock HttpUrl_parse req st = (RequestValidationError, st)).
Proof.
  destruct req as [| |k|b|k b|k b|k]; simpl; unfold bind.
  - split; [split; [discriminate | tauto] | tauto].
  - rewrite list_recipes_eq; simpl.
    split; [split; [discriminate | tauto] | tauto].
  - rewrite <- path_ok_false; destruct (path_ok k); simpl.
    + rewrite get_recipe_eq; destruct (dict_get k _); simpl;
        (split; [split; discriminate | discriminate]).
    + split; [split; reflexivity | reflexivity].
  - rewrite create_input_invalid_iff.
    destruct (RecipeCreate_validate _ b) as [p|] eqn:V.
    + rewrite create_recipe_eq
        by (eapply RecipeCreate_validate_valid; exact V); simpl.
      split; [split; discriminate | discriminate].
    + split; [split; reflexivity | reflexivity].
  - rewrite create_input_invalid_iff, <- path_ok_false.
    destruct (path_ok k); simpl.
    + destruct (RecipeCreate_validate _ b) as [p|] eqn:V.
      * rewrite update_recipe_eq
          by (eapply RecipeCreate_validate_valid; exact V); simpl.
        destruct (dict_get k _); simpl;
          (split; [split; [discriminate | intros [H|H]; discriminate]
                  | intros [H|H]; discriminate]).
      * split; [split; auto | auto].
    + split; [split; auto | auto].
  - rewrite patch_input_invalid_iff, <- path_ok_false.
    destruct (path_ok k); simpl.
    + destruct (RecipeUpdate_validate _ b) as [p|] eqn:V.
      * rewrite patch_recipe_eq; simpl.
        destruct (dict_get k _); simpl; [destruct (Recipe_new _); simpl|];
          (split; [split; [discriminate | intros [H|H]; discriminate]
                  | intros [H|H]; discriminate]).
      * split; [split; auto | auto].
    + split; [split; auto | auto].
  - rewrite <- path_ok_false; destruct (path_ok k); simpl.
    + rewrite delete_recipe_eq; simpl; destruct (dict_contains k _); simpl;
        (split; [split; discriminate | discriminate]).
    + split; [split; reflexivity | reflexivity].
Qed.

(** ** What a failing request leaves behind *)

Section Failures.

Variable clock : nat -> datetime.
Variable HttpUrl_parse : string -> option HttpUrl.

(** The state after a request, by its outcome. *)
Lemma route_state_by_outcome (st : State) (req : Request) :
  match fst (route clock HttpUrl_parse req st) with
  | Return _ => True
  | RequestValidationError => step clock HttpUrl_parse st req = st
  | HTTPException _ _ =>
      step clock HttpUrl_parse st req = seed_state clock st
  | ValidationError_in_handler =>
      _db (step clock HttpUrl_parse st req) = _db (seed_state clock st)
      /\ _id_counter (step clock HttpUrl_parse st req)
         = _id_counter (seed_state clock st)
  end.
Proof.
  unfold step; destruct req as [| |k|b|k b|k b|k]; simpl; unfold bind.
  - exact I.
  - rewrite list_recipes_eq; exact I.
  - destruct (path_ok k); [|reflexivity].
    rewrite get_recipe_eq; destruct (dict_get k _); simpl; auto.
  - destruct (RecipeCreate_validate _ b) as [p|] eqn:V; [|reflexivity].
    rewrite create_recipe_eq by (eapply RecipeCreate_validate_valid; exact V).
    exact I.
  - destruct (path_ok k); [|reflexivity].
    destruct (RecipeCreate_validate _ b) as [p|] eqn:V; [|reflexivity].
    rewrite update_recipe_eq by (eapply RecipeCreate_validate_valid; exact V).
    simpl; destruct (dict_get k _); simpl; auto.
  - destruct (path_ok k); [|reflexivity].
    destruct (RecipeUpdate_validate _ b) as [p|]; [|reflexivity].
    rewrite patch_recipe_eq; simpl.
    destruct (dict_get k _); simpl; [|reflexivity].
    destruct (Recipe_new _); simpl; auto.
  - destruct (path_ok k); [|reflexivity].
    rewrite delete_recipe_eq; simpl; destruct (dict_contains k _); simpl; auto.
Qed.

End Failures.

(** X4. A request that does not return a result (the 404, the request
    validation error, or the constructor failure inside patch) leaves every
    stored record, their order and the id counter as they were; the one
    exception is a handler that ran on an empty store, which has seeded it
    before failing. *)
Theorem failed_requests_change_no_record
    (clock : nat -> datetime) (HttpUrl_parse : string -> option HttpUrl)
    (st : State) (req : Request) :
  (forall a, fst (route clock HttpUrl_parse req st) <> Return a) ->
  let st' := step clock HttpUrl_parse st req in
  (_db st' = _db st /\ _id_counter st' = _id_counter st)
  \/ (_db st = []
      /\ fst (route clock HttpUrl_parse req st) <> RequestValidationError
      /\ _db st' = _db (seed_state clock st)
      /\ _id_counter st' = _id_counter st + 1).
Proof.
  intros NR st'.
  pose proof (route_state_by_outcome clock HttpUrl_parse st req) as P.
  fold st' in P.
  destruct (_db st) as [|e d] eqn:E.
  - assert (C : _id_counter (seed_state clock st) = _id_counter st + 1)
      by (rewrite (seed_state_empty clock st E); reflexivity).
    destruct (fst (route clock HttpUrl_parse req st)) as [a|c m| |].
    + exfalso; exact (NR a eq_refl).
    + right; rewrite P; repeat split; auto; discriminate.
    + left; rewrite P; auto.
    + right; destruct P as [P1 P2]; rewrite P1, P2.
      repeat split; auto; discriminate.
  - assert (N : seed_state clock st = st)
      by (apply seed_state_nonempty; rewrite E; discriminate).
    rewrite N in P; left.
    destruct (fst (route clock HttpUrl_parse req st)) as [a|c m| |].
    + exfalso; exact (NR a eq_refl).
    + rewrite P; auto.
    + rewrite P; auto.
    + rewrite <- E; exact P.
Qed.

(** A get of an id that is not stored, after the first listing. *)
Lemma failed_requests_change_no_record_witness :
  let st := run example_clock example_url [GET_recipes] initial_state in
  (forall a, fst (route example_clock example_url (GET_recipe 9) st)
             <> Return a)
  /\ _db (step example_clock example_url st (GET_recipe 9)) = _db st.
Proof.
  intros st.
  assert (H : forall a, fst (route example_clock example_url (GET_recipe 9) st)
                        <> Return a) by (intros a; discriminate).
  split; [exact H|].
  destruct (failed_requests_change_no_record example_clock example_url st
              (GET_recipe 9) H) as [[A _]|[A _]]; [exact A | discriminate A].
Defined.

(** ** Reading back what was written *)

Lemma In_dict_get (k : Z) (d : Dict) (r : Recipe) :
  NoDup (dict_keys d) -> In (k, r) d -> dict_get k d = Some r.
Proof.
  induction d as [|[k' v] t IH]; simpl; [tauto|].
  intros ND [E|I].
  - inversion E; subst; rewrite Z.eqb_refl; reflexivity.
  - inversion ND as [|? ? Hn ND']; subst.
    destruct (Z.eqb_spec k k') as [->|N].
    + exfalso; apply Hn; change k' with (fst (k', r)); apply in_map; exact I.
    + auto.
Qed.

Section ReadBack.

Variable clock : nat -> datetime.
Variable HttpUrl_parse : string -> option HttpUrl.

Lemma get_route_stored (st : State) (k : Z) (r : Recipe) :
  store_ok st ->
  dict_get k (_db st) = Some r ->
  route clock HttpUrl_parse (GET_recipe k) st = (Return (OneRecipe r), st).
Proof.
  intros S G; simpl; rewrite (store_ok_path_ok st k r S G); unfold bind.
  rewrite get_recipe_eq.
  rewrite (seed_state_nonempty clock st (dict_get_nonempty k _ r G)), G.
  reflexivity.
Qed.

Lemma get_route_absent (st : State) (k : Z) :
  1 <= k ->
  dict_get k (_db (seed_state clock st)) = None ->
  route clock HttpUrl_parse (GET_recipe k) st
  = (HTTPException 404 "Recipe not found", seed_state clock st).
Proof.
  intros L G; simpl.
  rewrite (proj2 (path_ok_true k) L); unfold bind.
  rewrite get_recipe_eq, G; reflexivity.
Qed.

(** The record a request returns is the one stored under its id. *)
Lemma returned_record_is_stored (st st' : State) (req : Request)
    (r : Recipe) :
  store_ok st ->
  route clock HttpUrl_parse req st = (Return (OneRecipe r), st') ->
  dict_get (r_id r) (_db st') = Some r.
Proof.
  intros S0; pose proof (seed_state_ok clock st S0) as S.
  destruct req as [| |k|b|k b|k b|k]; simpl; unfold bind.
  - discriminate.
  - rewrite list_recipes_eq; discriminate.
  - destruct (path_ok k); [|discriminate].
    rewrite get_recipe_eq.
    destruct (dict_get k _) as [x|] eqn:G; [|discriminate].
    intros H; inversion H; subst.
    destruct (store_ok_entry _ k r S G) as (A & _); rewrite A; exact G.
  - intros H.
    exact (proj1 (proj2 (create_route_returns clock HttpUrl_parse st st' b r
                           H))).
  - destruct (path_ok k); [|discriminate].
    destruct (RecipeCreate_validate _ b) as [p|] eqn:V; [|discriminate].
    rewrite update_recipe_eq by (eapply RecipeCreate_validate_valid; exact V).
    simpl; destruct (dict_get k _); [|discriminate]; simpl.
    intros H; inversion H; subst; simpl; apply dict_get_set_same.
  - destruct (path_ok k); [|discriminate].
    destruct (RecipeUpdate_validate _ b) as [p|]; [|discriminate].
    rewrite patch_recipe_eq; simpl.
    destruct (dict_get k _) as [old|] eqn:G; [|discriminate].
    destruct (Recipe_new _) as [u|] eqn:N; [|discriminate]; simpl.
    intros H; inversion H; subst; simpl.
    apply Recipe_new_managed in N; simpl in N; destruct N as (A & _).
    destruct (store_ok_entry _ k old S G) as (B & _).
    rewrite A, B; apply dict_get_set_same.
  - destruct (path_ok k); [|discriminate].
    rewrite delete_recipe_eq; simpl; destruct (dict_contains k _);
      discriminate.
Qed.

End ReadBack.

(** X5. After any sequence of requests, when a request (get, create, replace
    or patch) returns a record, a get of that record's id right after it
    returns the same record and changes nothing. *)
Theorem returned_record_can_be_read_back
    (clock : nat -> datetime) (HttpUrl_parse : string -> option HttpUrl)
    (reqs : list Request) (req : Request) (r : Recipe) (st' : State) :
  route clock HttpUrl_parse req
    (run clock HttpUrl_parse reqs initial_state)
  = (Return (OneRecipe r), st') ->
  route clock HttpUrl_parse (GET_recipe (r_id r)) st'
  = (Return (OneRecipe r), st').
Proof.
  intros H.
  pose proof (run_store_ok clock HttpUrl_parse reqs initial_state
                initial_store_ok) as S.
  pose proof (step_store_ok clock HttpUrl_parse _ req S) as S'.
  unfold step in S'; rewrite H in S'; simpl in S'.
  apply get_route_stored; [exact S'|].
  eapply returned_record_is_stored; [exact S | exact H].
Qed.

(** A create as the first request of a process: the seed takes id 1, the
    created record id 2. *)
Lemma returned_record_can_be_read_back_witness :
  let r := mkRecipe "X" None [] [] None None None (Some 4) 2 1002 1002 in
  let st' := mkState [(1, sample_recipe 1 1000 1001); (2, r)] 2 3 in
  route example_clock example_url (POST_recipes body_title_X_servings_4)
    (run example_clock example_url [] initial_state)
  = (Return (OneRecipe r), st')
  /\ route example_clock example_url (GET_recipe 2) st'
     = (Return (OneRecipe r), st').
Proof.
  intros r st'; split; [reflexivity|].
  exact (returned_record_can_be_read_back example_clock example_url []
           (POST_recipes body_title_X_servings_4) r st' eq_refl).
Defined.

(** X6. After any sequence of requests, a get of an id returns a record
    exactly when the listing holds that record with that id: get and list
    see the same store. *)
Theorem get_returns_what_list_shows
    (clock : nat -> datetime) (HttpUrl_parse : string -> option HttpUrl)
    (reqs : list Request) (k : Z) (r : Recipe) :
  let st := run clock HttpUrl_parse reqs initial_state in
  fst (route clock HttpUrl_parse (GET_recipe k) st) = Return (OneRecipe r)
  <-> exists l : list Recipe,
        fst (route clock HttpUrl_parse GET_recipes st) = Return (Recipes l)
        /\ In r l /\ r_id r = k.
Proof.
  intros st.
  pose proof (run_store_ok clock HttpUrl_parse reqs initial_state
                initial_store_ok) as S0; fold st in S0.
  pose proof (seed_state_ok clock st S0) as S.
  simpl; unfold bind; rewrite list_recipes_eq; simpl.
  split.
  - destruct (path_ok k); [|discriminate].
    rewrite get_recipe_eq.
    destruct (dict_get k _) as [x|] eqn:G; [|discriminate]; simpl.
    intros H; inversion H; subst.
    exists (dict_values (_db (seed_state clock st))).
    split; [reflexivity|].
    destruct (store_ok_entry _ k r S G) as (A & _).
    split; [|exact A].
    apply dict_get_In in G; unfold dict_values.
    change r with (snd (k, r)); apply in_map; exact G.
  - intros (l & El & I & A); inversion El; subst l.
    unfold dict_values in I; apply in_map_iff in I.
    destruct I as ([k' r'] & E & I); simpl in E; subst r'.
    pose proof (store_ok_ids _ _ S I) as B; simpl in B.
    assert (Ek : k' = k) by congruence.
    rewrite Ek in I.
    assert (G : dict_get k (_db (seed_state clock st)) = Some r)
      by (apply In_dict_get; [destruct S; assumption | exact I]).
    rewrite (store_ok_path_ok _ k r S G), get_recipe_eq, G; reflexivity.
Qed.

(** ** Delete *)

Section DeleteGone.

Variable clock : nat -> datetime.
Variable HttpUrl_parse : string -> option HttpUrl.

Lemma delete_route_stored (st : State) (k : Z) (r : Recipe) :
  store_ok st ->
  dict_get k (_db st) = Some r ->
  route clock HttpUrl_parse (DELETE_recipe k) st
  = (Return (Deleted k),
     mkState (dict_del k (_db st)) (_id_counter st) (ticks st)).
Proof.
  intros S G; simpl; rewrite (store_ok_path_ok st k r S G); unfold bind.
  rewrite delete_recipe_eq.
  rewrite (seed_state_nonempty clock st (dict_get_nonempty k _ r G)).
  simpl; unfold dict_contains; rewrite G; reflexivity.
Qed.

(** An id at or below the counter that the store does not hold is not found,
    whatever is served before the lookup. *)
Lemma retired_id_absent_after_seed (st : State) (more : list Request)
    (k : Z) :
  store_ok st -> k <= _id_counter st -> dict_get k (_db st) = None ->
  dict_get k
    (_db (seed_state clock (run clock HttpUrl_parse more st))) = None.
Proof.
  intros S L G; apply dict_get_None; intros I.
  apply seed_state_keys in I; destruct I as [I|I].
  - revert I; apply run_retired; [exact S | exact L|].
    apply dict_get_None; exact G.
  - pose proof (run_counter clock HttpUrl_parse more st); lia.
Qed.

End DeleteGone.

(** X7. After any sequence of requests, a delete of a stored id returns that
    id, removes the record and leaves the counter and the clock alone; from
    then on, whatever requests are served in between, a get, a replace, a
    patch or another delete of that id is answered with the 404. *)
Theorem deleted_id_stays_not_found
    (clock : nat -> datetime) (HttpUrl_parse : string -> option HttpUrl)
    (reqs more : list Request) (k : Z) (r : Recipe) (body : Body) :
  let st := run clock HttpUrl_parse reqs initial_state in
  dict_get k (_db st) = Some r ->
  let st' := mkState (dict_del k (_db st)) (_id_counter st) (ticks st) in
  let later := run clock HttpUrl_parse more st' in
  route clock HttpUrl_parse (DELETE_recipe k) st = (Return (Deleted k), st')
  /\ fst (route clock HttpUrl_parse (GET_recipe k) later)
     = HTTPException 404 "Recipe not found"
  /\ fst (route clock HttpUrl_parse (DELETE_recipe k) later)
     = HTTPException 404 "Recipe not found"
  /\ (~ create_input_invalid HttpUrl_parse body ->
      fst (route clock HttpUrl_parse (PUT_recipe k body) later)
      = HTTPException 404 "Recipe not found")
  /\ (~ patch_input_invalid HttpUrl_parse body ->
      fst (route clock HttpUrl_parse (PATCH_recipe k body) later)
      = HTTPException 404 "Recipe not found").
Proof.
  intros st G st' later.
  pose proof (run_store_ok clock HttpUrl_parse reqs initial_state
                initial_store_ok) as S; fold st in S.
  pose proof (delete_route_stored clock HttpUrl_parse st k r S G) as D.
  fold st' in D.
  assert (S' : store_ok st').
  { pose proof (step_store_ok clock HttpUrl_parse st (DELETE_recipe k) S)
      as H.
    unfold step in H; rewrite D in H; exact H. }
  destruct (store_ok_entry st k r S G) as (_ & B & _).
  assert (P : path_ok k = true) by (apply path_ok_true; lia).
  assert (A : dict_get k (_db (seed_state clock later)) = None).
  { apply retired_id_absent_after_seed; [exact S' | simpl; lia|].
    simpl; apply dict_del_gone; destruct S; assumption. }
  split; [exact D|].
  split; [rewrite get_route_absent; [reflexivity | lia | exact A]|].
  split.
  { simpl; rewrite P; unfold bind; rewrite delete_recipe_eq; simpl.
    unfold dict_contains; rewrite A; reflexivity. }
  split.
  - intros V; rewrite create_input_invalid_iff in V.
    destruct (RecipeCreate_validate HttpUrl_parse body) as [p|] eqn:E;
      [|congruence].
    rewrite (update_route clock HttpUrl_parse later k body p (proj1 B) E).
    simpl; rewrite A; reflexivity.
  - intros V; rewrite patch_input_invalid_iff in V.
    destruct (RecipeUpdate_validate HttpUrl_parse body) as [p|] eqn:E;
      [|congruence].
    simpl; rewrite P, E; unfold bind; rewrite patch_recipe_eq; simpl.
    rewrite A; reflexivity.
Qed.

(** The seed record is deleted, then a record is created and listed, then
    id 1 is looked up again. *)
Lemma deleted_id_stays_not_found_witness :
  let st := run example_clock example_url [GET_recipes] initial_state in
  let more := [POST_recipes body_title_X_servings_4; GET_recipes] in
  dict_get 1 (_db st) = Some (sample_recipe 1 1000 1001)
  /\ route example_clock example_url (DELETE_recipe 1) st
     = (Return (Deleted 1), mkState [] 1 2)
  /\ fst (route example_clock example_url (GET_recipe 1)
            (run example_clock example_url more (mkState [] 1 2)))
     = HTTPException 404 "Recipe not found".
Proof.
  intros st more.
  pose proof (deleted_id_stays_not_found example_clock example_url
                [GET_recipes] more 1 (sample_recipe 1 1000 1001) empty_body
                eq_refl) as (A & B & _).
  split; [reflexivity | split; [exact A | exact B]].
Defined.

(** ** A request writes only under its own id *)

Section Frame.

Variable clock : nat -> datetime.
Variable HttpUrl_parse : string -> option HttpUrl.

Lemma step_frame (st : State) (req : Request) (k : Z) (r : Recipe) :
  store_ok st ->
  dict_get k (_db st) = Some r ->
  written_id req <> Some k ->
  dict_get k (_db (step clock HttpUrl_parse st req)) = Some r.
Proof.
  intros S G W.
  pose proof (seed_state_nonempty clock st (dict_get_nonempty k _ r G)) as E.
  destruct (store_ok_entry st k r S G) as (_ & B & _).
  unfold step; destruct req as [| |i|b|i b|i b|i]; simpl in *; unfold bind.
  - exact G.
  - rewrite list_recipes_eq, E; exact G.
  - destruct (path_ok i); [|exact G].
    rewrite get_recipe_eq, E; destruct (dict_get i _); exact G.
  - destruct (RecipeCreate_validate _ b) as [p|] eqn:V; [|exact G].
    rewrite create_recipe_eq by (eapply RecipeCreate_validate_valid; exact V).
    rewrite E; simpl; rewrite dict_get_set_other by lia; exact G.
  - assert (N : k <> i) by congruence.
    destruct (path_ok i); [|exact G].
    destruct (RecipeCreate_validate _ b) as [p|] eqn:V; [|exact G].
    rewrite update_recipe_eq by (eapply RecipeCreate_validate_valid; exact V).
    rewrite E; simpl.
    destruct (dict_get i (_db st)); [|exact G]; simpl.
    rewrite dict_get_set_other by exact N; exact G.
  - assert (N : k <> i) by congruence.
    destruct (path_ok i); [|exact G].
    destruct (RecipeUpdate_validate _ b) as [p|]; [|exact G].
    rewrite patch_recipe_eq; rewrite E; simpl.
    destruct (dict_get i (_db st)); [|exact G].
    destruct (Recipe_new _); simpl; [|exact G].
    rewrite dict_get_set_other by exact N; exact G.
  - assert (N : k <> i) by congruence.
    destruct (path_ok i); [|exact G].
    rewrite delete_recipe_eq; rewrite E; simpl.
    destruct (dict_contains i _); [|exact G]; simpl.
    rewrite dict_get_del_other by exact N; exact G.
Qed.

End Frame.

(** X8. After any sequence of requests, a request leaves every stored record
    as it is, unless it is a replace, a patch or a delete that names the
    record's id in its path: a list, a get and a create never change a
    stored record, and a write to one id never changes another. *)
Theorem requests_write_only_under_their_own_id
    (clock : nat -> datetime) (HttpUrl_parse : string -> option HttpUrl)
    (reqs : list Request) (req : Request) (k : Z) (r : Recipe) :
  let st := run clock HttpUrl_parse reqs initial_state in
  dict_get k (_db st) = Some r ->
  written_id req <> Some k ->
  dict_get k (_db (step clock HttpUrl_parse st req)) = Some r.
Proof.
  intros st G W; apply step_frame; [|exact G | exact W].
  apply run_store_ok, initial_store_ok.
Qed.

(** The seed record while a second record is created and then deleted. *)
Lemma requests_write_only_under_their_own_id_witness :
  let reqs := [POST_recipes body_title_X_servings_4] in
  let st := run example_clock example_url reqs initial_state in
  dict_get 1 (_db st) = Some (sample_recipe 1 1000 1001)
  /\ written_id (DELETE_recipe 2) <> Some 1
  /\ dict_get 1 (_db (step example_clock example_url st (DELETE_recipe 2)))
     = Some (sample_recipe 1 1000 1001).
Proof.
  intros reqs st.
  assert (W : written_id (DELETE_recipe 2) <> Some 1) by discriminate.
  split; [reflexivity | split; [exact W|]].
  exact (requests_write_only_under_their_own_id example_clock example_url
           reqs (DELETE_recipe 2) 1 (sample_recipe 1 1000 1001) eq_refl W).
Defined.

(** ** [updated_at] along a run *)

Section UpdatedAt.

Variable clock : nat -> datetime.
Variable HttpUrl_parse : string -> option HttpUrl.
Hypothesis clock_monotone : monotone clock.

Lemma step_updated_at (st : State) (req : Request) (k : Z) (r r' : Recipe) :
  store_ok st ->
  times_ok clock st ->
  dict_get k (_db st) = Some r ->
  dict_get k (_db (step clock HttpUrl_parse st req)) = Some r' ->
  r_updated_at r <= r_updated_at r'.
Proof.
  intros S T G.
  pose proof (seed_state_nonempty clock st (dict_get_nonempty k _ r G)) as E.
  destruct (store_ok_entry st k r S G) as (_ & B & _).
  destruct (times_ok_entry clock st k r T G) as (_ & n & Ln & En).
  assert (Now : r_updated_at r <= clock (ticks st))
    by (rewrite En; apply clock_monotone; lia).
  assert (Same : dict_get k (_db st) = Some r' ->
                 r_updated_at r <= r_updated_at r')
    by (intros H; rewrite G in H; inversion H; lia).
  unfold step; destruct req as [| |i|b|i b|i b|i]; simpl; unfold bind.
  - exact Same.
  - rewrite list_recipes_eq, E; exact Same.
  - destruct (path_ok i); [|exact Same].
    rewrite get_recipe_eq, E; destruct (dict_get i _); exact Same.
  - destruct (RecipeCreate_validate _ b) as [p|] eqn:V; [|exact Same].
    rewrite create_recipe_eq by (eapply RecipeCreate_validate_valid; exact V).
    rewrite E; simpl; rewrite dict_get_set_other by lia; exact Same.
  - destruct (path_ok i); [|exact Same].
    destruct (RecipeCreate_validate _ b) as [p|] eqn:V; [|exact Same].
    rewrite update_recipe_eq by (eapply RecipeCreate_validate_valid; exact V).
    rewrite E; simpl.
    destruct (dict_get i (_db st)) as [ex|] eqn:Gi; [|exact Same]; simpl.
    destruct (Z.eq_dec k i) as [->|Nk].
    + rewrite dict_get_set_same; intros H; inversion H; simpl; exact Now.
    + rewrite dict_get_set_other by exact Nk; exact Same.
  - destruct (path_ok i); [|exact Same].
    destruct (RecipeUpdate_validate _ b) as [p|]; [|exact Same].
    rewrite patch_recipe_eq; rewrite E; simpl.
    destruct (dict_get i (_db st)) as [ex|] eqn:Gi; [|exact Same].
    destruct (Recipe_new _) as [u|] eqn:N; simpl; [|exact Same].
    destruct (Z.eq_dec k i) as [->|Nk].
    + rewrite dict_get_set_same; intros H; inversion H; subst.
      apply Recipe_new_managed in N; simpl in N; destruct N as (_ & _ & Nu).
      rewrite Nu; exact Now.
    + rewrite dict_get_set_other by exact Nk; exact Same.
  - destruct (path_ok i); [|exact Same].
    rewrite delete_recipe_eq; rewrite E; simpl.
    destruct (dict_contains i _); [|exact Same]; simpl.
    destruct (Z.eq_dec k i) as [->|Nk].
    + rewrite dict_del_gone by (destruct S; assumption); discriminate.
    + rewrite dict_get_del_other by exact Nk; exact Same.
Qed.

Lemma run_updated_at (reqs : list Request) (st : State) (k : Z)
    (r r' : Recipe) :
  store_ok st ->
  times_ok clock st ->
  dict_get k (_db st) = Some r ->
  dict_get k (_db (run clock HttpUrl_parse reqs st)) = Some r' ->
  r_updated_at r <= r_updated_at r'.
Proof.
  revert st r; induction reqs as [|req reqs IH]; simpl; intros st r S T G G'.
  - rewrite G in G'; inversion G'; lia.
  - pose proof (step_store_ok clock HttpUrl_parse st req S) as S'.
    pose proof (step_times_ok clock HttpUrl_parse clock_monotone st req T)
      as T'.
    destruct (dict_get k (_db (step clock HttpUrl_parse st req)))
      as [r1|] eqn:G1.
    + pose proof (IH _ r1 S' T' G1 G').
      pose proof (step_updated_at st req k r r1 S T G G1).
      lia.
    + exfalso.
      apply dict_get_Some_key in G'; revert G'.
      apply run_retired; [exact S' | | apply dict_get_None; exact G1].
      destruct (store_ok_entry st k r S G) as (_ & B & _).
      pose proof (step_counter clock HttpUrl_parse st req); lia.
Qed.

End UpdatedAt.

(** X9. Under a monotone clock, the [updated_at] of a record never goes
    back: a record that is stored after some requests and still stored after
    further ones has an [updated_at] at least as late as before. *)
Theorem updated_at_never_goes_back
    (clock : nat -> datetime) (HttpUrl_parse : string -> option HttpUrl)
    (reqs more : list Request) (k : Z) (r r' : Recipe) :
  monotone clock ->
  let st := run clock HttpUrl_parse reqs initial_state in
  dict_get k (_db st) = Some r ->
  dict_get k (_db (run clock HttpUrl_parse more st)) = Some r' ->
  r_updated_at r <= r_updated_at r'.
Proof.
  intros Mono st G G'.
  apply (run_updated_at clock HttpUrl_parse Mono more st k r r');
    [ apply run_store_ok, initial_store_ok
    | apply run_times_ok; [exact Mono | apply initial_times_ok]
    | exact G | exact G' ].
Qed.

(** The seed record, patched twice. *)
Lemma updated_at_never_goes_back_witness :
  let more := [PATCH_recipe 1 body_servings_2; PATCH_recipe 1 empty_body] in
  let st := run example_clock example_url [GET_recipes] initial_state in
  let r := sample_recipe 1 1000 1001 in
  let r' := mkRecipe (r_title r) (r_description r) (r_ingredients r)
              (r_steps r) None (Some 10) (Some 15) (Some 2) 1 1000 1003 in
  monotone example_clock
  /\ dict_get 1 (_db st) = Some r
  /\ dict_get 1 (_db (run example_clock example_url more st)) = Some r'
  /\ r_updated_at r <= r_updated_at r'.
Proof.
  intros more st r r'.
  split; [exact example_clock_monotone|].
  split; [reflexivity|].
  split; [reflexivity|].
  exact (updated_at_never_goes_back example_clock example_url [GET_recipes]
           more 1 r r' example_clock_monotone eq_refl eq_refl).
Defined.

(** ** Create *)

Lemma RecipeCreate_validate_fields (HttpUrl_parse : string -> option HttpUrl)
    (b : Body) (p : RecipeCreate) :
  RecipeCreate_validate HttpUrl_parse b = Some p ->
  merged None (b_title b) (Some (p_title p))
  /\ merged None (b_description b) (p_description p)
  /\ merged (Some []) (b_ingredients b) (Some (p_ingredients p))
  /\ merged (Some []) (b_steps b) (Some (p_steps p))
  /\ match b_image_url b with
     | Provided (Some u) =>
         HttpUrl_parse u = p_image_url p /\ p_image_url p <> None
     | _ => p_image_url p = None
     end
  /\ merged None (b_prep_time_minutes b) (p_prep_time_minutes p)
  /\ merged None (b_cook_time_minutes b) (p_cook_time_minutes p)
  /\ merged None (b_servings b) (p_servings p).
Proof.
  unfold RecipeCreate_validate, merged.
  destruct b as [t d i s u pt ct sv]; simpl.
  destruct t as [|[t|]]; simpl; try discriminate.
  destruct (title_ok t); [|discriminate].
  destruct d as [|[d|]]; simpl;
    try (destruct (description_ok d); [|discriminate]);
  destruct i as [|[i|]]; simpl; try discriminate;
  destruct s as [|[s|]]; simpl; try discriminate;
  destruct u as [|[u|]]; simpl;
    try (destruct (HttpUrl_parse u) eqn:Eu; [|discriminate]);
  destruct pt as [|[pt|]]; simpl;
    try (destruct (ge_ok 0 pt); [|discriminate]);
  destruct ct as [|[ct|]]; simpl;
    try (destruct (ge_ok 0 ct); [|discriminate]);
  destruct sv as [|[sv|]]; simpl;
    try (destruct (ge_ok 1 sv); [|discriminate]);
  intros H; inversion H; subst; simpl;
  repeat split; try reflexivity; try assumption; try discriminate.
Qed.

(** X10. After any sequence of requests, a create whose body breaks no
    declared constraint returns and stores a new record: its id is the
    counter plus one (after the seeding step) and lies above every stored
    id, its fields are the values of the body, with no value for a left-out
    or null optional field and the empty list for left-out ingredients or
    steps, and both timestamps are the clock reading of the call. *)
Theorem create_stores_fresh_record_with_defaults
    (clock : nat -> datetime) (HttpUrl_parse : string -> option HttpUrl)
    (reqs : list Request) (body : Body) :
  let st := run clock HttpUrl_parse reqs initial_state in
  ~ create_input_invalid HttpUrl_parse body ->
  exists (r : Recipe) (st' : State),
    route clock HttpUrl_parse (POST_recipes body) st
    = (Return (OneRecipe r), st')
    /\ r_id r = _id_counter (seed_state clock st) + 1
    /\ _id_counter st' = r_id r
    /\ (forall k, In k (dict_keys (_db (seed_state clock st))) -> k < r_id r)
    /\ _db st' = (_db (seed_state clock st) ++ [(r_id r, r)])%list
    /\ merged None (b_title body) (Some (r_title r))
    /\ merged None (b_description body) (r_description r)
    /\ merged (Some []) (b_ingredients body) (Some (r_ingredients r))
    /\ merged (Some []) (b_steps body) (Some (r_steps r))
    /\ match b_image_url body with
       | Provided (Some u) =>
           HttpUrl_parse u = r_image_url r /\ r_image_url r <> None
       | _ => r_image_url r = None
       end
    /\ merged None (b_prep_time_minutes body) (r_prep_time_minutes r)
    /\ merged None (b_cook_time_minutes body) (r_cook_time_minutes r)
    /\ merged None (b_servings body) (r_servings r)
    /\ r_created_at r = clock (ticks (seed_state clock st))
    /\ r_updated_at r = r_created_at r.
Proof.
  intros st V; rewrite create_input_invalid_iff in V.
  destruct (RecipeCreate_validate HttpUrl_parse body) as [p|] eqn:E;
    [|congruence].
  pose proof (run_store_ok clock HttpUrl_parse reqs initial_state
                initial_store_ok) as S0; fold st in S0.
  pose proof (seed_state_ok clock st S0) as Sd.
  set (s := seed_state clock st) in *.
  set (r := recipe_of_payload (_id_counter s + 1) (clock (ticks s))
              (clock (ticks s)) p).
  exists r, (mkState (dict_set (_id_counter s + 1) r (_db s))
               (_id_counter s + 1) (S (ticks s))).
  split.
  { simpl; rewrite E; unfold bind.
    rewrite create_recipe_eq by (eapply RecipeCreate_validate_valid; exact E).
    reflexivity. }
  split; [reflexivity|].
  split; [reflexivity|].
  split.
  { intros k I; pose proof (store_ok_key_le s k Sd I); simpl; lia. }
  split.
  { simpl; apply dict_set_absent, store_ok_fresh; [exact Sd | lia]. }
  destruct (RecipeCreate_validate_fields HttpUrl_parse body p E)
    as (A1 & A2 & A3 & A4 & A5 & A6 & A7 & A8).
  simpl; repeat split; assumption.
Qed.

(** A create with [{"title": "X", "servings": 4}] as the first request. *)
Lemma create_stores_fresh_record_with_defaults_witness :
  ~ create_input_invalid example_url body_title_X_servings_4
  /\ exists (r : Recipe) (st' : State),
       route example_clock example_url (POST_recipes body_title_X_servings_4)
         (run example_clock example_url [] initial_state)
       = (Return (OneRecipe r), st')
       /\ r_id r = 2 /\ r_ingredients r = [] /\ r_description r = None.
Proof.
  assert (V : ~ create_input_invalid example_url body_title_X_servings_4).
  { rewrite create_input_invalid_iff; discriminate. }
  split; [exact V|].
  destruct (create_stores_fresh_record_with_defaults example_clock example_url
              [] body_title_X_servings_4 V)
    as (r & st' & R & I & _ & _ & _ & _ & D & G & _).
  exists r, st'; split; [exact R|].
  split; [exact I|].
  split; [inversion G; reflexivity | exact D].
Defined.

(** ** Two patches in a row *)

Lemma optional_set_then {A : Type} (ok : A -> bool) (f1 f2 g1 g2 : Presence A) :
  optional_set ok f1 = Some g1 ->
  optional_set ok f2 = Some g2 ->
  optional_set ok (then_field f1 f2) = Some (then_field g1 g2).
Proof.
  intros H1 H2.
  destruct (optional_set_ok ok f2 g2 H2) as [-> _].
  destruct (optional_set_ok ok f1 g1 H1) as [-> _].
  destruct f2; simpl; assumption.
Qed.

Lemma optional_set_url_then (HttpUrl_parse : string -> option HttpUrl)
    (f1 f2 : Presence string) (g1 g2 : Presence HttpUrl) :
  optional_set_url HttpUrl_parse f1 = Some g1 ->
  optional_set_url HttpUrl_parse f2 = Some g2 ->
  optional_set_url HttpUrl_parse (then_field f1 f2) = Some (then_field g1 g2).
Proof.
  destruct f2 as [|[u|]]; simpl.
  - intros H1 H2; inversion H2; subst; exact H1.
  - destruct (HttpUrl_parse u); [|discriminate].
    intros _ H2; inversion H2; reflexivity.
  - intros _ H2; inversion H2; reflexivity.
Qed.

Lemma RecipeUpdate_validate_then (HttpUrl_parse : string -> option HttpUrl)
    (b1 b2 : Body) (p1 p2 : RecipeUpdate) :
  RecipeUpdate_validate HttpUrl_parse b1 = Some p1 ->
  RecipeUpdate_validate HttpUrl_parse b2 = Some p2 ->
  RecipeUpdate_validate HttpUrl_parse (body_then b1 b2)
  = Some (update_then p1 p2).
Proof.
  unfold RecipeUpdate_validate, body_then, update_then; simpl.
  destruct (optional_set _ (b_title b1)) eqn:T1; [|discriminate].
  destruct (optional_set _ (b_description b1)) eqn:D1; [|discriminate].
  destruct (optional_set _ (b_ingredients b1)) eqn:I1; [|discriminate].
  destruct (optional_set _ (b_steps b1)) eqn:S1; [|discriminate].
  destruct (optional_set_url _ (b_image_url b1)) eqn:U1; [|discriminate].
  destruct (optional_set _ (b_prep_time_minutes b1)) eqn:P1; [|discriminate].
  destruct (optional_set _ (b_cook_time_minutes b1)) eqn:C1; [|discriminate].
  destruct (optional_set _ (b_servings b1)) eqn:V1; [|discriminate].
  destruct (optional_set _ (b_title b2)) eqn:T2; [|discriminate].
  destruct (optional_set _ (b_description b2)) eqn:D2; [|discriminate].
  destruct (optional_set _ (b_ingredients b2)) eqn:I2; [|discriminate].
  destruct (optional_set _ (b_steps b2)) eqn:S2; [|discriminate].
  destruct (optional_set_url _ (b_image_url b2)) eqn:U2; [|discriminate].
  destruct (optional_set _ (b_prep_time_minutes b2)) eqn:P2; [|discriminate].
  destruct (optional_set _ (b_cook_time_minutes b2)) eqn:C2; [|discriminate].
  destruct (optional_set _ (b_servings b2)) eqn:V2; [|discriminate].
  intros H1 H2; inversion H1; inversion H2; subst; simpl.
  rewrite (optional_set_then _ _ _ _ _ T1 T2),
    (optional_set_then _ _ _ _ _ D1 D2), (optional_set_then _ _ _ _ _ I1 I2),
    (optional_set_then _ _ _ _ _ S1 S2),
    (optional_set_url_then _ _ _ _ _ U1 U2),
    (optional_set_then _ _ _ _ _ P1 P2), (optional_set_then _ _ _ _ _ C1 C2),
    (optional_set_then _ _ _ _ _ V1 V2).
  reflexivity.
Qed.

Lemma patched_then {A : Type} (old : A) (f1 f2 : Presence A) :
  f2 <> Provided None ->
  patched (patched old f1) f2 = patched old (then_field f1 f2).
Proof.
  destruct f2 as [|[a|]]; simpl; [reflexivity | reflexivity | congruence].
Qed.

Lemma patched_opt_then {A : Type} (old : option A) (f1 f2 : Presence A) :
  patched_opt (patched_opt old f1) f2 = patched_opt old (then_field f1 f2).
Proof. destruct f2; reflexivity. Qed.

Lemma no_null_on_required_fields (p : RecipeUpdate) :
  no_null_on_required p = true <->
  u_title p <> Provided None /\ u_ingredients p <> Provided None
  /\ u_steps p <> Provided None.
Proof.
  unfold no_null_on_required.
  destruct (u_title p) as [|[?|]], (u_ingredients p) as [|[?|]],
    (u_steps p) as [|[?|]];
    (split; [intros H; try discriminate; repeat split; discriminate
            | intros (A & B & C); try reflexivity; congruence]).
Qed.

Lemma then_field_not_null {A : Type} (f1 f2 : Presence A) :
  f1 <> Provided None -> f2 <> Provided None ->
  then_field f1 f2 <> Provided None.
Proof. destruct f2; simpl; auto. Qed.

Lemma patched_recipe_then (old : Recipe) (p1 p2 : RecipeUpdate)
    (t1 t2 : datetime) :
  no_null_on_required p2 = true ->
  patched_recipe (patched_recipe old p1 t1) p2 t2
  = patched_recipe old (update_then p1 p2) t2.
Proof.
  intros N; apply no_null_on_required_fields in N; destruct N as (A & B & C).
  unfold patched_recipe, update_then; simpl.
  rewrite !patched_opt_then, !patched_then by assumption.
  reflexivity.
Qed.

(** X11. After any sequence of requests, two patches of a stored id, one
    after the other, both accepted and neither setting [title],
    [ingredients] or [steps] to null, store the record that the single patch
    with the two bodies combined (the second body's fields over the first's)
    would have stored, except that [updated_at] is the clock reading of the
    second call. *)
Theorem two_patches_store_what_the_combined_patch_stores
    (clock : nat -> datetime) (HttpUrl_parse : string -> option HttpUrl)
    (reqs : list Request) (k : Z) (old : Recipe) (b1 b2 : Body)
    (p1 p2 : RecipeUpdate) :
  let st := run clock HttpUrl_parse reqs initial_state in
  dict_get k (_db st) = Some old ->
  RecipeUpdate_validate HttpUrl_parse b1 = Some p1 ->
  RecipeUpdate_validate HttpUrl_parse b2 = Some p2 ->
  no_null_on_required p1 = true ->
  no_null_on_required p2 = true ->
  exists once twice : Recipe,
    fst (route clock HttpUrl_parse (PATCH_recipe k (body_then b1 b2)) st)
    = Return (OneRecipe once)
    /\ fst (route clock HttpUrl_parse (PATCH_recipe k b2)
              (step clock HttpUrl_parse st (PATCH_recipe k b1)))
       = Return (OneRecipe twice)
    /\ twice = with_updated_at once (clock (S (ticks st)))
    /\ dict_get k
         (_db (run clock HttpUrl_parse
                 [PATCH_recipe k b1; PATCH_recipe k b2] st))
       = Some twice.
Proof.
  intros st G V1 V2 N1 N2.
  pose proof (run_store_ok clock HttpUrl_parse reqs initial_state
                initial_store_ok) as Hs; fold st in Hs.
  destruct (store_ok_entry st k old Hs G) as (_ & _ & Vo).
  pose proof (RecipeUpdate_validate_valid HttpUrl_parse b1 p1 V1) as U1.
  pose proof (RecipeUpdate_validate_valid HttpUrl_parse b2 p2 V2) as U2.
  pose proof (RecipeUpdate_validate_then HttpUrl_parse b1 b2 p1 p2 V1 V2)
    as V12.
  pose proof (RecipeUpdate_validate_valid HttpUrl_parse _ _ V12) as U12.
  assert (N12 : no_null_on_required (update_then p1 p2) = true).
  { apply no_null_on_required_fields in N1, N2.
    destruct N1 as (A1 & B1 & C1), N2 as (A2 & B2 & C2).
    apply no_null_on_required_fields; simpl.
    repeat split; apply then_field_not_null; assumption. }
  set (r1 := patched_recipe old p1 (clock (ticks st))).
  set (st1 := mkState (dict_set k r1 (_db st)) (_id_counter st)
                (S (ticks st))).
  assert (E1 : route clock HttpUrl_parse (PATCH_recipe k b1) st
               = (Return (OneRecipe r1), st1)).
  { rewrite (patch_route_existing clock HttpUrl_parse st k b1 p1 old Hs G V1).
    rewrite (Recipe_new_patched old p1 _ Vo U1 N1); reflexivity. }
  assert (S1 : store_ok st1).
  { pose proof (step_store_ok clock HttpUrl_parse st (PATCH_recipe k b1) Hs)
      as H.
    unfold step in H; rewrite E1 in H; exact H. }
  assert (G1 : dict_get k (_db st1) = Some r1) by apply dict_get_set_same.
  destruct (store_ok_entry st1 k r1 S1 G1) as (_ & _ & Vr1).
  set (r2 := patched_recipe r1 p2 (clock (S (ticks st)))).
  assert (E2 : route clock HttpUrl_parse (PATCH_recipe k b2) st1
               = (Return (OneRecipe r2),
                  mkState (dict_set k r2 (_db st1)) (_id_counter st1)
                    (S (ticks st1)))).
  { rewrite (patch_route_existing clock HttpUrl_parse st1 k b2 p2 r1 S1 G1
               V2).
    simpl ticks.
    rewrite (Recipe_new_patched r1 p2 _ Vr1 U2 N2); reflexivity. }
  exists (patched_recipe old (update_then p1 p2) (clock (ticks st))), r2.
  split.
  { rewrite (patch_route_existing clock HttpUrl_parse st k _ _ old Hs G V12).
    rewrite (Recipe_new_patched old _ _ Vo U12 N12); reflexivity. }
  split; [unfold step; rewrite E1; simpl snd; rewrite E2; reflexivity|].
  split.
  { unfold r2, r1; rewrite (patched_recipe_then old p1 p2 _ _ N2).
    reflexivity. }
  unfold run; simpl fold_left; unfold step at 2; rewrite E1; simpl snd.
  unfold step; rewrite E2; simpl; apply dict_get_set_same.
Qed.

(** The seed record patched with [{"servings": 2}] and then with
    [{"description": null, "ingredients": []}]. *)
Lemma two_patches_store_what_the_combined_patch_stores_witness :
  let st := run example_clock example_url [GET_recipes] initial_state in
  let b1 := body_servings_2 in
  let b2 := body_description_null_ingredients_empty in
  let p1 := mkRecipeUpdate Unset Unset Unset Unset Unset Unset Unset
              (Provided (Some 2)) in
  let p2 := mkRecipeUpdate Unset (Provided None) (Provided (Some [])) Unset
              Unset Unset Unset Unset in
  dict_get 1 (_db st) = Some (sample_recipe 1 1000 1001)
  /\ RecipeUpdate_validate example_url b1 = Some p1
  /\ RecipeUpdate_validate example_url b2 = Some p2
  /\ no_null_on_required p1 = true
  /\ no_null_on_required p2 = true
  /\ exists twice : Recipe,
       dict_get 1
         (_db (run example_clock example_url
                 [PATCH_recipe 1 b1; PATCH_recipe 1 b2] st))
       = Some twice
       /\ r_servings twice = Some 2 /\ r_description twice = None
       /\ r_ingredients twice = [] /\ r_updated_at twice = 1003.
Proof.
  intros st b1 b2 p1 p2.
  do 5 (split; [reflexivity|]).
  destruct (two_patches_store_what_the_combined_patch_stores example_clock
              example_url [GET_recipes] 1 (sample_recipe 1 1000 1001) b1 b2
              p1 p2 eq_refl eq_refl eq_refl eq_refl eq_refl)
    as (once & twice & _ & _ & _ & G).
  exists twice; split; [exact G|].
  fold st in G.
  assert (E : dict_get 1
                (_db (run example_clock example_url
                        [PATCH_recipe 1 b1; PATCH_recipe 1 b2] st))
              = Some (mkRecipe "Classic Pancakes" None []
                        (r_steps (sample_recipe 1 1000 1001))
                        None (Some 10) (Some 15) (Some 2) 1 1000 1003))
    by reflexivity.
  rewrite E in G; inversion G; repeat split; reflexivity.
Defined.

(** ** A patch that gives every field *)

Lemma validate_all_provided (HttpUrl_parse : string -> option HttpUrl)
    (b : Body) (p : RecipeCreate) :
  all_provided b ->
  RecipeCreate_validate HttpUrl_parse b = Some p ->
  exists p' : RecipeUpdate,
    RecipeUpdate_validate HttpUrl_parse b = Some p'
    /\ no_null_on_required p' = true
    /\ forall (old : Recipe) (now : datetime),
         patched_recipe old p' now
         = recipe_of_payload (r_id old) (r_created_at old) now p.
Proof.
  unfold all_provided, RecipeCreate_validate, RecipeUpdate_validate.
  destruct b as [t d i s u pt ct sv]; simpl.
  intros (At & Ad & Ai & As & Au & Ap & Ac & Av).
  destruct t as [|[t|]]; try congruence; simpl; try discriminate.
  destruct (title_ok t); [|discriminate].
  destruct i as [|[i|]]; try congruence; simpl;
    [|destruct (optional _ _); discriminate].
  destruct s as [|[s|]]; try congruence; simpl;
    [|destruct (optional _ _); discriminate].
  destruct d as [|[d|]]; try congruence; simpl;
    try (destruct (description_ok d); [|discriminate]);
  destruct u as [|[u|]]; try congruence; simpl;
    try (destruct (HttpUrl_parse u); [|discriminate]);
  destruct pt as [|[pt|]]; try congruence; simpl;
    try (destruct (ge_ok 0 pt); [|discriminate]);
  destruct ct as [|[ct|]]; try congruence; simpl;
    try (destruct (ge_ok 0 ct); [|discriminate]);
  destruct sv as [|[sv|]]; try congruence; simpl;
    try (destruct (ge_ok 1 sv); [|discriminate]);
  intros H; inversion H; subst;
  eexists; (split; [reflexivity | split; [reflexivity|]]);
  intros old now; reflexivity.
Qed.

(** X12. After any sequence of requests, a patch whose body gives all eight
    fields and breaks no constraint of a full record does exactly what the
    replace with that body does: the same answer and the same state, on a
    stored id as on one that is not stored. *)
Theorem patch_giving_every_field_is_a_replace
    (clock : nat -> datetime) (HttpUrl_parse : string -> option HttpUrl)
    (reqs : list Request) (k : Z) (body : Body) :
  let st := run clock HttpUrl_parse reqs initial_state in
  all_provided body ->
  ~ create_input_invalid HttpUrl_parse body ->
  route clock HttpUrl_parse (PATCH_recipe k body) st
  = route clock HttpUrl_parse (PUT_recipe k body) st.
Proof.
  intros st A V; rewrite create_input_invalid_iff in V.
  destruct (RecipeCreate_validate HttpUrl_parse body) as [p|] eqn:E;
    [|congruence].
  destruct (validate_all_provided HttpUrl_parse body p A E)
    as (p' & E' & N & P).
  pose proof (run_store_ok clock HttpUrl_parse reqs initial_state
                initial_store_ok) as S0; fold st in S0.
  pose proof (seed_state_ok clock st S0) as Sd.
  simpl; rewrite E, E'; destruct (path_ok k); [|reflexivity].
  unfold bind; rewrite patch_recipe_eq.
  rewrite update_recipe_eq by (eapply RecipeCreate_validate_valid; exact E).
  simpl; destruct (dict_get k _) as [old|] eqn:G; [|reflexivity].
  destruct (store_ok_entry _ k old Sd G) as (I & _ & Vo).
  rewrite (Recipe_new_patched old p' _ Vo
             (RecipeUpdate_validate_valid HttpUrl_parse body p' E') N).
  rewrite P, I; reflexivity.
Qed.

(** The seed record, patched or replaced with the full body "Y". *)
Lemma patch_giving_every_field_is_a_replace_witness :
  let st := run example_clock example_url [GET_recipes] initial_state in
  let r := mkRecipe "Y" None ["salt"] [] None (Some 5) (Some 0) (Some 1)
             1 1000 1002 in
  all_provided body_full_Y
  /\ ~ create_input_invalid example_url body_full_Y
  /\ route example_clock example_url (PUT_recipe 1 body_full_Y) st
     = (Return (OneRecipe r), mkState [(1, r)] 1 3)
  /\ route example_clock example_url (PATCH_recipe 1 body_full_Y) st
     = (Return (OneRecipe r), mkState [(1, r)] 1 3).
Proof.
  intros st r.
  assert (A : all_provided body_full_Y)
    by (unfold all_provided; simpl; repeat split; discriminate).
  assert (V : ~ create_input_invalid example_url body_full_Y)
    by (rewrite create_input_invalid_iff; discriminate).
  split; [exact A | split; [exact V | split; [reflexivity|]]].
  exact (eq_trans
           (patch_giving_every_field_is_a_replace example_clock example_url
              [GET_recipes] 1 body_full_Y A V)
           eq_refl).
Defined.

(** ** The store is empty only before the first handler and after a delete *)


